(** * A Jupyter kernel for Node.js: the message codec, the code rewriter and
      the execute-request state machine, embedded from [index.js].

    The kernel is one JavaScript file.  Its own functions ([rewriteCode],
    [uuid], [parse], [send], [iopub], the console hooks and the three
    ['message'] handlers) are embedded below as Rocq functions.  What the file
    takes from the platform ([JSON], [crypto], [util], [recast]/[acorn],
    [vm], [Math.random]) is not code of the kernel: it is gathered in a
    [Section] as variables, so that every theorem holds for whatever these
    library functions compute.  A small executable platform (a JSON printer
    and reader, SHA-256 with HMAC, a printer and reader for a fragment of
    JavaScript) is defined further down and is used to run the kernel on
    concrete messages. *)

From Stdlib Require Import String Ascii List ZArith Lia Bool.
Import ListNotations.
Open Scope string_scope.
Open Scope Z_scope.
Set Warnings "-register-all".

(** ** JavaScript values *)

(** The values the kernel handles: what [JSON.parse] returns, what object
    literals build, and [undefined].  An object is the list of its own
    properties in enumeration order. *)
Inductive value : Type :=
| VUndefined
| VNull
| VBool (b : bool)
| VNum (n : Z)
| VStr (s : string)
| VArr (elements : list value)
| VObj (props : list (string * value)).

(** The outcome of running a piece of JavaScript: it returns, or it throws. *)
Inductive completion (A : Type) : Type :=
| Normal (a : A)
| Throw (e : value).
Arguments Normal {A} a.
Arguments Throw {A} e.

Definition new_TypeError (message : string) : value :=
  VObj [("name", VStr "TypeError"); ("message", VStr message);
        ("stack", VStr ("TypeError: " ++ message))].

Fixpoint lookup (k : string) (props : list (string * value)) : value :=
  match props with
  | [] => VUndefined
  | (k', v) :: rest => if String.eqb k k' then v else lookup k rest
  end.

(** [v.k]: reading a property of [undefined] or [null] throws a [TypeError];
    an object yields its property or [undefined].  The names the kernel reads
    ([msg_type], [username], [session], [code], [name], [message], [stack])
    are properties of no primitive and of no array, so those yield
    [undefined]. *)
Definition get (v : value) (k : string) : completion value :=
  match v with
  | VUndefined => Throw (new_TypeError ("Cannot read property '" ++ k ++ "' of undefined"))
  | VNull => Throw (new_TypeError ("Cannot read property '" ++ k ++ "' of null"))
  | VObj props => Normal (lookup k props)
  | _ => Normal VUndefined
  end.

(** [v === 'literal'] *)
Definition strict_equals_string (v : value) (s : string) : bool :=
  match v with
  | VStr s' => String.eqb s' s
  | _ => false
  end.

(** [!condition] is true for the falsy values. *)
Definition falsy (v : value) : bool :=
  match v with
  | VUndefined | VNull | VBool false | VNum 0 | VStr "" => true
  | _ => false
  end.

(** ** Arrays of frames *)

(** [strs.indexOf(x)]: the first position of [x], or [-1]. *)
Fixpoint indexOf (l : list string) (x : string) : Z :=
  match l with
  | [] => -1
  | y :: rest =>
      if String.eqb y x then 0
      else let i := indexOf rest x in if i <? 0 then -1 else i + 1
  end.

(** A relative index of [Array.prototype.slice]: negative counts from the
    end, and the result is clamped to [0 .. len]. *)
Definition relative_index {A} (l : list A) (k : Z) : nat :=
  let len := Z.of_nat (length l) in
  Z.to_nat (if k <? 0 then Z.max (len + k) 0 else Z.min k len).

(** [l.slice(start, end)] *)
Definition slice {A} (l : list A) (start stop : Z) : list A :=
  let s := relative_index l start in
  let e := relative_index l stop in
  firstn (e - s) (skipn s l).

(** [l.slice(start)] *)
Definition slice_from {A} (l : list A) (start : Z) : list A :=
  skipn (relative_index l start) l.

(** [toHash.join('')] *)
Definition join (l : list string) : string := String.concat "" l.

(** ** Syntax trees *)

(** An ESTree node as [acorn] builds it and [acorn-walk] traverses it: its
    [type], its scalar attributes (a declaration's [kind], an identifier's
    [name], a literal's [raw] text, ...) and the child nodes in the order the
    walker visits them.  A [ClassDeclaration] has its [id] as first child; a
    [VariableDeclarator] has its [id] and then its [init]. *)
Inductive node : Type :=
| Node (type : string) (attrs : list (string * string)) (children : list node).

Definition type_of (n : node) : string := let 'Node t _ _ := n in t.
Definition attrs_of (n : node) : list (string * string) := let 'Node _ a _ := n in a.
Definition children_of (n : node) : list node := let 'Node _ _ c := n in c.

Fixpoint attr (k : string) (a : list (string * string)) : option string :=
  match a with
  | [] => None
  | (k', v) :: rest => if String.eqb k k' then Some v else attr k rest
  end.

(** [node.k = v]: the attribute is overwritten where it stands, or added. *)
Fixpoint set_attr (k v : string) (a : list (string * string)) : list (string * string) :=
  match a with
  | [] => [(k, v)]
  | (k', v') :: rest =>
      if String.eqb k k' then (k, v) :: rest else (k', v') :: set_attr k v rest
  end.

Definition kind_of (n : node) : option string := attr "kind" (attrs_of n).

Definition is_type (t : string) (n : node) : bool := String.eqb (type_of n) t.

(** [node.id] of a class declaration. *)
Definition id_of (n : node) : node := nth 0 (children_of n) (Node "Identifier" [] []).

(** The visitor of [VariableDeclaration]: [node.kind = 'var']. *)
Definition visit_VariableDeclaration (n : node) : node :=
  let 'Node t a c := n in Node t (set_attr "kind" "var" a) c.

(** [walk.ancestor] below the program: the base walker descends into the
    children first, then the visitor for the node's own type runs.  The
    [ClassDeclaration] visitor looks the node up in the body of
    [ancestors[0]], which is the program: for a class declared anywhere
    deeper, [indexOf] is [-1] and the assignment [parent.body[-1] = ...]
    adds a property that is no element of the array, so nothing changes. *)
Fixpoint walk (n : node) : node :=
  let 'Node t a c := n in
  let n' := Node t a (map walk c) in
  if String.eqb t "VariableDeclaration" then visit_VariableDeclaration n' else n'.

(** What the [ClassDeclaration] visitor stores in the program body:
    [b.variableDeclaration('var',
       [b.variableDeclarator(node.id, { ...node, type: 'ClassExpression' })])]. *)
Definition class_as_variable (n : node) : node :=
  Node "VariableDeclaration" [("kind", "var")]
    [Node "VariableDeclarator" []
       [id_of n; Node "ClassExpression" (attrs_of n) (children_of n)]].

(** One element of [program.body]: the statement is walked, and a class
    declaration is then replaced where it stands. *)
Definition walk_statement (n : node) : node :=
  let n' := walk n in
  if is_type "ClassDeclaration" n' then class_as_variable n' else n'.

(** The syntax tree after [walk.ancestor(ast.program, {...})]; the root is
    the [Program] node, its children are the statements of [program.body]. *)
Definition rewrite (program : node) : node :=
  let 'Node t a body := program in Node t a (map walk_statement body).

(** ** Sockets and the console *)

Inductive socket : Type := control | shell | stdin | hb | iopub_socket.

Inductive console_method : Type :=
| log | debug | info | warn | error | dir | trace | assert.

(** A call [console.m(...args)] made by user code. *)
Record console_call : Type := Call { method : console_method; args : list value }.

(** What the global [console] of the execution context is bound to:
    [undefined] as the context is created, the hooks of a request (the
    closures keep that request's [data.header]), or whatever user code
    assigned to it. *)
Inductive console_binding : Type :=
| ConsoleUndefined
| ConsoleHooks (parent : value)
| ConsoleOther.

(** ** The kernel *)

(** The execution context: the [console] global, which the kernel assigns,
    and the bindings user code has made. *)
Record context (bindings : Type) : Type := Context {
  console : console_binding;
  user : bindings
}.
Arguments Context {bindings} console user.
Arguments console {bindings} c.
Arguments user {bindings} c.

(** What running a script does: the calls it makes to the console hooks
    while it runs, the context it leaves, and its completion.  The calls
    are those made through [console], which reach the hooks it is bound
    to; the value returned or thrown is read as data of the kind above, an
    object that is thrown as its [name], [message] and [stack]. *)
Record evaluation (bindings A : Type) : Type := Evaluation {
  calls : list console_call;
  context_after : context bindings;
  result : completion A
}.
Arguments Evaluation {bindings A} calls context_after result.
Arguments calls {bindings A} e.
Arguments context_after {bindings A} e.
Arguments result {bindings A} e.

(** *** The platform *)

(** The library functions the kernel calls, and the connection file. *)
Class Platform : Type := {
  (** [JSON.parse] and [JSON.stringify].  No call of the kernel passes
      [undefined] itself to [JSON.stringify], so its result is a string. *)
  JSON_parse : string -> completion value;
  JSON_stringify : value -> string;
  (** [crypto.createHmac('sha256', key).update(data).digest('hex')] *)
  hmac_sha256_hex : string -> string -> string;
  (** [config.key], from the connection file. *)
  config_key : string;
  (** [Math.random().toString(0x0f)] at the n-th call of [Math.random]. *)
  random_base15 : nat -> string;
  (** [util.format(...args)] and [util.inspect(v, { depth: 2 })] *)
  util_format : list value -> string;
  util_inspect : value -> string;
  (** [new Error(message)] *)
  new_Error : string -> value;
  (** [recast.parse] with [acorn] as parser, and [recast.print(ast).code]. *)
  recast_parse : value -> completion node;
  recast_print : node -> string;
  (** The bindings of the execution context, and
      [vm.runInContext(code, context, { filename: 'jupyter.js' })]. *)
  bindings : Type;
  vm_runInContext : string -> context bindings -> evaluation bindings value
}.

Section Kernel.

Context {P : Platform}.

(** *** State and effects *)

(** The state of the process: [executionCount], the execution context, the
    number of [Math.random] calls made, and every array of frames handed to
    a socket's [send], oldest first. *)
Record kernel : Type := Kernel {
  executionCount : Z;
  ctx : context bindings;
  draws : nat;
  sent : list (socket * list string)
}.

(** A computation reads and updates the state; the state is kept when it
    throws. *)
Definition M (A : Type) : Type := kernel -> completion A * kernel.

Definition ret {A} (a : A) : M A := fun k => (Normal a, k).

Definition bind {A B} (m : M A) (f : A -> M B) : M B :=
  fun k =>
    match m k with
    | (Normal a, k') => f a k'
    | (Throw e, k') => (Throw e, k')
    end.

Definition lift {A} (c : completion A) : M A := fun k => (c, k).

(** [try { body } catch (e) { handler }] *)
Definition try_catch {A} (body : M A) (handler : value -> M A) : M A :=
  fun k =>
    match body k with
    | (Normal a, k') => (Normal a, k')
    | (Throw e, k') => handler e k'
    end.

Notation "x <- m ;; f" := (bind m (fun x => f))
  (at level 61, m at next level, right associativity).
Notation "m ;;; f" := (bind m (fun _ => f))
  (at level 61, right associativity).

(** [socket.send(data)] *)
Definition socket_send (s : socket) (data : list string) : M unit :=
  fun k => (Normal tt,
            Kernel (executionCount k) (ctx k) (draws k) (sent k ++ [(s, data)])).

(** [Math.random().toString(0x0f).slice(10, 100)] *)
Definition uuid : M string :=
  fun k => (Normal (substring 10 90 (random_base15 (draws k))),
            Kernel (executionCount k) (ctx k) (S (draws k)) (sent k)).

(** *** The codec *)

Definition DELIM : string := "<IDS|MSG>".

Record message : Type := Message {
  header : value;
  content : value;
  uuids : list string
}.

(** [JSON.parse(x)] for an element taken out of an array by destructuring:
    a missing element is [undefined], which [JSON.parse] converts to the
    text [undefined]. *)
Definition JSON_parse_element (x : option string) : completion value :=
  JSON_parse (match x with Some s => s | None => "undefined" end).

(** [parse(...args)].  The frames are modelled by their text, so
    [a.toString()] is the identity. *)
Definition parse (args : list string) : completion message :=
  let strs := args in
  let i := indexOf strs DELIM in
  let uuids := slice args 0 i in
  let payload := slice_from strs (i + 2) in
  match JSON_parse_element (nth_error payload 0) with
  | Throw e => Throw e
  | Normal header =>
      match JSON_parse_element (nth_error payload 3) with
      | Throw e => Throw e
      | Normal content => Normal (Message header content uuids)
      end
  end.

(** The header [send] builds. *)
Definition reply_header (replyId : string) (username : value) (type : string)
    (session : value) : value :=
  VObj [("msg_id", VStr replyId);
        ("username", username);
        ("msg_type", VStr type);
        ("session", session);
        ("version", VStr "5.1")].

(** The default [metadata = {}] of [send] applies when the argument is
    [undefined]. *)
Definition default_metadata (metadata : value) : value :=
  match metadata with VUndefined => VObj [] | _ => metadata end.

(** [toHash] and [data] of [send], once [replyId], [parent.username] and
    [parent.session] are known. *)
Definition toHash (replyId : string) (username : value) (type : string)
    (session content parent metadata : value) : list string :=
  [JSON_stringify (reply_header replyId username type session);
   JSON_stringify parent;
   JSON_stringify (default_metadata metadata);
   JSON_stringify content].

Definition frames (ids : list string) (toHash : list string) : list string :=
  ids ++ [DELIM; hmac_sha256_hex config_key (join toHash)] ++ toHash.

(** [send(socket, ids, type, content, parent, metadata)] *)
Definition send (s : socket) (ids : list string) (type : string)
    (content parent metadata : value) : M unit :=
  replyId <- uuid ;;
  username <- lift (get parent "username") ;;
  session <- lift (get parent "session") ;;
  socket_send s
    (frames ids (toHash replyId username type session content parent metadata)).

(** [iopub(type, content, parent)] *)
Definition iopub (type : string) (content parent : value) : M unit :=
  id <- uuid ;;
  send iopub_socket [id] type content parent VUndefined.

(** *** The code rewriter *)

(** [rewriteCode(source)] *)
Definition rewriteCode (source : value) : completion string :=
  match recast_parse source with
  | Throw e => Throw e
  | Normal ast => Normal (recast_print (rewrite ast))
  end.

(** *** The console hooks *)

(** [fmt(...args)] *)
Definition fmt (a : list value) : string := util_format a ++ String "010" "".

(** The closures [log] and [error] of a request whose header is [parent]. *)
Definition hook_log (parent : value) (a : list value) : M unit :=
  iopub "stream" (VObj [("name", VStr "stdout"); ("text", VStr (fmt a))]) parent.

Definition hook_error (parent : value) (a : list value) : M unit :=
  iopub "stream" (VObj [("name", VStr "stderr"); ("text", VStr (fmt a))]) parent.

(** The object assigned to [context.console], method by method. *)
Definition hooks (parent : value) (c : console_call) : M unit :=
  match method c with
  | log | debug | info | dir => hook_log parent (args c)
  | warn | error => hook_error parent (args c)
  | trace => hook_log parent [new_Error (util_format (args c))]
  | assert =>
      if falsy (hd VUndefined (args c))
      then hook_error parent (VStr "Assertion failed;" :: tl (args c))
      else ret tt
  end.

Fixpoint for_each {A} (f : A -> M unit) (l : list A) : M unit :=
  match l with
  | [] => ret tt
  | x :: rest => f x ;;; for_each f rest
  end.

Definition set_context (c : context bindings) : M unit :=
  fun k => (Normal tt, Kernel (executionCount k) c (draws k) (sent k)).

Definition set_console (b : console_binding) : M unit :=
  fun k => set_context (Context b (user (ctx k))) k.

(** A call of [console.m(...)] from code of the context: it reaches the
    hooks that [console] is bound to at that moment. *)
Definition console_call_in_context (c : console_call) : M unit :=
  fun k =>
    match console (ctx k) with
    | ConsoleHooks parent => hooks parent c k
    | _ => (Normal tt, k)
    end.

(** [vm.runInContext(code, context, ...)] as the kernel sees it: the console
    calls of the script run in order, the context is left as the script
    leaves it, and the script's completion is the call's. *)
Definition runInContext (code : string) : M value :=
  fun k =>
    let ev := vm_runInContext code (ctx k) in
    (for_each console_call_in_context (calls ev) ;;;
     set_context (context_after ev) ;;;
     lift (result ev)) k.

(** *** The handlers *)

(** The [kernel_info_reply] content. *)
Definition kernel_info : value :=
  VObj [("protocol_version", VStr "5.1");
        ("implementation", VStr "nodejs");
        ("implementation_version", VStr "1.0");
        ("language", VStr "JavaScript");
        ("banner", VStr "Node.js for Jupyter");
        ("language_info",
         VObj [("name", VStr "Node.js");
               ("version", VStr "0.10");
               ("mimetype", VStr "text/javascript");
               ("file_extension", VStr ".js");
               ("pygments_lexer", VStr "javascript");
               ("codemirror_mode", VStr "javascript")]);
        ("help_links",
         VArr [VObj [("text", VStr "Node.js Documentation");
                     ("url", VStr "https://nodejs.org/api/")];
               VObj [("text", VStr "JavaScript Documentation (MDN)");
                     ("url", VStr "https://developer.mozilla.org/en-US/docs/Web/JavaScript")]])].

Definition increment_executionCount : M unit :=
  fun k => (Normal tt, Kernel (executionCount k + 1) (ctx k) (draws k) (sent k)).

Definition get_executionCount : M Z :=
  fun k => (Normal (executionCount k), k).

(** The [try] block of an execute request. *)
Definition execute_try (data : message) : M unit :=
  source <- lift (get (content data) "code") ;;
  code <- lift (rewriteCode source) ;;
  v <- runInContext code ;;
  let result := util_inspect v in
  n <- get_executionCount ;;
  iopub "execute_result"
    (VObj [("execution_count", VNum n);
           ("data", VObj [("text/plain", VStr result)])]) (header data) ;;;
  n <- get_executionCount ;;
  send shell (uuids data) "execute_reply"
    (VObj [("status", VStr "ok");
           ("execution_count", VNum n);
           ("user_expressions", VObj []);
           ("payload", VArr [])]) (header data) VUndefined.

(** The [catch (e)] block of an execute request. *)
Definition execute_catch (data : message) (e : value) : M unit :=
  ename <- lift (get e "name") ;;
  evalue <- lift (get e "message") ;;
  stack <- lift (get e "stack") ;;
  iopub "error"
    (VObj [("ename", ename); ("evalue", evalue); ("traceback", VArr [stack])])
    (header data) ;;;
  ename <- lift (get e "name") ;;
  evalue <- lift (get e "message") ;;
  stack <- lift (get e "stack") ;;
  n <- get_executionCount ;;
  send shell (uuids data) "execute_reply"
    (VObj [("status", VStr "error");
           ("ename", ename);
           ("evalue", evalue);
           ("traceback", VArr [stack]);
           ("execution_count", VNum n);
           ("user_expressions", VObj []);
           ("payload", VArr [])]) (header data) VUndefined.

(** The body of [if (data.header.msg_type === 'execute_request')]. *)
Definition execute_request (data : message) : M unit :=
  iopub "status" (VObj [("execution_state", VStr "busy")]) (header data) ;;;
  increment_executionCount ;;;
  source <- lift (get (content data) "code") ;;
  n <- get_executionCount ;;
  iopub "execute_input"
    (VObj [("code", source); ("execution_count", VNum n)]) (header data) ;;;
  set_console (ConsoleHooks (header data)) ;;;
  try_catch (execute_try data) (execute_catch data) ;;;
  iopub "status" (VObj [("execution_state", VStr "idle")]) (header data).

(** [sockets.shell.on('message', (...args) => {...})] *)
Definition shell_on_message (args : list string) : M unit :=
  data <- lift (parse args) ;;
  msg_type <- lift (get (header data) "msg_type") ;;
  if strict_equals_string msg_type "kernel_info_request" then
    send shell (uuids data) "kernel_info_reply" kernel_info (header data) VUndefined
  else if strict_equals_string msg_type "execute_request" then
    execute_request data
  else ret tt.

(** [sockets.control.on('message', (...args) => {...})]: the result is the
    exit code when the handler calls [process.exit]. *)
Definition control_on_message (args : list string) : M (option Z) :=
  data <- lift (parse args) ;;
  msg_type <- lift (get (header data) "msg_type") ;;
  if strict_equals_string msg_type "shutdown_request" then ret (Some 0)
  else ret None.

(** [sockets.hb.on('message', (data) => sockets.hb.send(data))]: the
    handler takes the first frame of the message, and sends it back as a
    message of one frame. *)
Definition hb_on_message (data : string) : M unit := socket_send hb [data].

(** *** The process *)

(** What can happen to the process: a message arrives on a socket, or a
    callback that user code left behind (a timer, a promise) calls a console
    method.  The ['message'] event of a socket passes the frames of the
    message as arguments; a message has at least one frame, and the
    heartbeat handler names the first only. *)
Inductive event : Type :=
| ShellMessage (args : list string)
| ControlMessage (args : list string)
| HeartbeatMessage (data : string) (more : list string)
| ConsoleCallback (c : console_call).

(** The process is running, has died of an exception no handler caught, or
    has called [process.exit]. *)
Inductive process : Type :=
| Running (k : kernel)
| Crashed (e : value) (k : kernel)
| Exited (code : Z) (k : kernel).

Definition settle (r : completion unit * kernel) : process :=
  match r with
  | (Normal _, k) => Running k
  | (Throw e, k) => Crashed e k
  end.

Definition handle (k : kernel) (ev : event) : process :=
  match ev with
  | ShellMessage args => settle (shell_on_message args k)
  | ControlMessage args =>
      match control_on_message args k with
      | (Normal None, k') => Running k'
      | (Normal (Some code), k') => Exited code k'
      | (Throw e, k') => Crashed e k'
      end
  | HeartbeatMessage data _ => settle (hb_on_message data k)
  | ConsoleCallback c => settle (console_call_in_context c k)
  end.

(** The events are handled one after the other while the process runs. *)
Fixpoint run (p : process) (evs : list event) : process :=
  match p, evs with
  | Running k, ev :: rest => run (handle k ev) rest
  | _, _ => p
  end.

(** The state the process has once the sockets are bound: nothing executed,
    [console: undefined] in the context. *)
Definition boot (initial : bindings) : kernel :=
  Kernel 0 (Context ConsoleUndefined initial) 0 [].

(** The state a process is in or was last in, and whether it still runs. *)
Definition state_of (p : process) : kernel :=
  match p with Running k | Crashed _ k | Exited _ k => k end.

Definition is_running (p : process) : bool :=
  match p with Running _ => true | _ => false end.

End Kernel.

(** ** The script engine *)

(** [vm.runInContext] compiles the code as a script and runs it in the
    global environment of the context.  The engine is V8, no code of the
    kernel.  What is modelled here, after ECMA-262, is the part the
    rewriting of declarations is about: the instantiation of the top-level
    declarations of a script (GlobalDeclarationInstantiation), which is the
    step that refuses to declare a name, and the evaluation of variable and
    class declarations.  The model is for scripts made of declarations of
    plain names with an initializer, of class declarations, of expression
    statements and of [throw] statements.  What expressions do, what these
    statements do, what an assignment does to a binding that is no plain
    variable, and what any other script does, is left to the engine. *)

(** An own property of the global object, with the attributes the
    declaration rules read. *)
Inductive global_property (V : Type) : Type :=
| Data (v : V) (writable configurable : bool)
| Accessor (configurable : bool).
Arguments Data {V} v writable configurable.
Arguments Accessor {V} configurable.

Definition is_configurable {V} (p : global_property V) : bool :=
  match p with Data _ _ c | Accessor c => c end.

(** A binding of the declarative record.  The bindings of [let] and
    [class] are mutable, those of [const] are not; a binding holds no value
    until its declaration is evaluated. *)
Record lexical_binding (V : Type) : Type := Binding {
  mutable : bool;
  held : option V
}.
Arguments Binding {V} mutable held.
Arguments mutable {V} l.
Arguments held {V} l.

(** The global environment: the declarative record, with the [let],
    [const] and [class] bindings of earlier scripts; the names declared
    with [var] or [function]; and the global object, which is extensible or
    not and has its own properties. *)
Record environment (V : Type) : Type := Environment {
  declarative : list (string * lexical_binding V);
  varNames : list string;
  extensible : bool;
  properties : list (string * global_property V)
}.
Arguments Environment {V} declarative varNames extensible properties.
Arguments declarative {V} e.
Arguments varNames {V} e.
Arguments extensible {V} e.
Arguments properties {V} e.

Definition new_SyntaxError (message : string) : value :=
  VObj [("name", VStr "SyntaxError"); ("message", VStr message);
        ("stack", VStr ("SyntaxError: " ++ message))].

Definition mem (x : string) (l : list string) : bool := existsb (String.eqb x) l.

Fixpoint set_value {V} (x : string) (v : V) (l : list (string * V)) : list (string * V) :=
  match l with
  | [] => [(x, v)]
  | (y, w) :: rest =>
      if String.eqb x y then (x, v) :: rest else (y, w) :: set_value x v rest
  end.

Fixpoint value_of {V} (x : string) (l : list (string * V)) : option V :=
  match l with
  | [] => None
  | (y, w) :: rest => if String.eqb x y then Some w else value_of x rest
  end.

(** *** The statements of the fragment *)

(** The name of an identifier. *)
Definition name_of (id : node) : option string :=
  if is_type "Identifier" id then attr "name" (attrs_of id) else None.

(** A declarator [x = init] of a plain name. *)
Definition plain_declarator (d : node) : option (string * node) :=
  match children_of d with
  | [id; init] => option_map (fun x => (x, init)) (name_of id)
  | _ => None
  end.

Fixpoint all_some {A} (l : list (option A)) : option (list A) :=
  match l with
  | [] => Some []
  | Some a :: rest => option_map (cons a) (all_some rest)
  | None :: _ => None
  end.

(** A declaration with [var], [let] or [const] of plain names; a class
    declaration, with its name and the class as an expression; a statement
    that declares nothing. *)
Inductive statement : Type :=
| Declaration (kind : string) (declarators : list (string * node))
| ClassDeclaration (x : string) (class : node)
| Run (s : node).

Definition declaring_kind (k : string) : bool :=
  existsb (String.eqb k) ["var"; "let"; "const"].

Definition classify (s : node) : option statement :=
  if is_type "VariableDeclaration" s then
    match kind_of s, all_some (map plain_declarator (children_of s)) with
    | Some k, Some ds => if declaring_kind k then Some (Declaration k ds) else None
    | _, _ => None
    end
  else if is_type "ClassDeclaration" s then
    option_map
      (fun x => ClassDeclaration x (Node "ClassExpression" (attrs_of s) (children_of s)))
      (name_of (id_of s))
  else if is_type "ExpressionStatement" s || is_type "ThrowStatement" s
  then Some (Run s)
  else None.

(** LexicallyDeclaredNames: the names declared with [let], [const] and
    [class], each with whether its binding is mutable. *)
Definition lexical_bindings (s : statement) : list (string * bool) :=
  match s with
  | Declaration kind ds =>
      if String.eqb kind "let" then map (fun d => (fst d, true)) ds
      else if String.eqb kind "const" then map (fun d => (fst d, false)) ds
      else []
  | ClassDeclaration x _ => [(x, true)]
  | Run _ => []
  end.

(** VarDeclaredNames: there is no function declaration in the fragment,
    and a statement nested in an expression is inside a function. *)
Definition var_names (s : statement) : list string :=
  match s with
  | Declaration kind ds => if String.eqb kind "var" then map fst ds else []
  | _ => []
  end.

Fixpoint distinct (l : list string) : bool :=
  match l with
  | [] => true
  | x :: rest => negb (mem x rest) && distinct rest
  end.

(** The early errors of a script: a name declared lexically twice, or
    lexically and with [var].  The parser refuses such a script. *)
Definition early_error (l : list statement) : bool :=
  let lex := map fst (flat_map lexical_bindings l) in
  negb (distinct lex) || existsb (fun x => mem x (flat_map var_names l)) lex.

(** The statements of a script of the fragment.  A script that declares
    [console], the global the kernel assigns, is left to the engine. *)
Definition fragment (script : node) : option (list statement) :=
  match all_some (map classify (children_of script)) with
  | Some l =>
      if early_error l
         || mem "console" (map fst (flat_map lexical_bindings l) ++ flat_map var_names l)
      then None else Some l
  | None => None
  end.

(** *** The instantiation of the declarations *)

Definition has_lexical {V} (x : string) (env : environment V) : bool :=
  mem x (map fst (declarative env)).

(** HasRestrictedGlobalProperty: an own property that is not
    configurable. *)
Definition restricted {V} (x : string) (env : environment V) : bool :=
  match value_of x (properties env) with
  | Some p => negb (is_configurable p)
  | None => false
  end.

(** CanDeclareGlobalVar: the property is there, or the global object is
    extensible. *)
Definition can_declare_var {V} (x : string) (env : environment V) : bool :=
  match value_of x (properties env) with
  | Some _ => true
  | None => extensible env
  end.

(** CreateGlobalVarBinding(x, false): a property that is missing is
    created, with the value [undefined], writable and not configurable. *)
Definition create_var {V} (undefined : V) (env : environment V) (x : string)
    : environment V :=
  Environment (declarative env)
    (if mem x (varNames env) then varNames env else varNames env ++ [x])
    (extensible env)
    (match value_of x (properties env) with
     | Some _ => properties env
     | None =>
         if extensible env then properties env ++ [(x, Data undefined true false)]
         else properties env
     end).

(** The bindings of the lexical declarations, not yet initialized. *)
Definition create_lexical {V} (env : environment V) (lex : list (string * bool))
    : environment V :=
  Environment
    (declarative env ++ map (fun d => (fst d, Binding (snd d) None)) lex)
    (varNames env) (extensible env) (properties env).

(** GlobalDeclarationInstantiation.  A lexical declaration is refused with
    a [SyntaxError] when its name is declared already, with [var] or
    lexically, or is a property of the global object that is not
    configurable; a [var] declaration is refused with a [SyntaxError] when
    its name is declared lexically, and with a [TypeError] when the global
    object cannot take it.  Then the bindings are created. *)
Definition GlobalDeclarationInstantiation {V} (undefined : V) (l : list statement)
    (env : environment V) : completion (environment V) :=
  let lex := flat_map lexical_bindings l in
  let vars := flat_map var_names l in
  let already x :=
    Throw (new_SyntaxError ("Identifier '" ++ x ++ "' has already been declared")) in
  match find (fun x => mem x (varNames env) || has_lexical x env || restricted x env)
             (map fst lex) with
  | Some x => already x
  | None =>
      match find (fun x => has_lexical x env) vars with
      | Some x => already x
      | None =>
          match find (fun x => negb (can_declare_var x env)) vars with
          | Some x =>
              Throw (new_TypeError
                       ("Cannot define global variable '" ++ x
                        ++ "', global object is not extensible"))
          | None => Normal (fold_left (create_var undefined) vars (create_lexical env lex))
          end
      end
  end.

(** *** The evaluation of the statements *)

Section Engine.

Variable V : Type.
Let env : Type := environment V.
(** The value [undefined]. *)
Variable undefined : V.
(** What evaluating an expression does, and what running an expression
    statement or a [throw] statement does. *)
Variable evaluate : node -> context env -> evaluation env V.
Variable execute : node -> context env -> evaluation env value.
(** What the assignment of a declaration does when the name is not bound
    to a writable data property of the global object (the property is an
    accessor, or not writable, or gone; the name is bound lexically), and
    what running a script outside the fragment does. *)
Variable assign : string -> V -> context env -> evaluation env unit.
Variable run_script : node -> context env -> evaluation env value.
(** The engine's own parser. *)
Variable engine_parse : string -> completion node.

Definition and_then {A B} (ev : evaluation env A)
    (f : A -> context env -> evaluation env B) : evaluation env B :=
  match result ev with
  | Throw e => Evaluation (calls ev) (context_after ev) (Throw e)
  | Normal a =>
      let ev' := f a (context_after ev) in
      Evaluation (calls ev ++ calls ev') (context_after ev') (result ev')
  end.

(** PutValue for the name of a [var] declaration: the global environment
    looks in the declarative record first, then sets the property of the
    global object. *)
Definition put_var (x : string) (v : V) (c : context env) : evaluation env unit :=
  match has_lexical x (user c), value_of x (properties (user c)) with
  | false, Some (Data _ true configurable) =>
      Evaluation []
        (Context (console c)
           (Environment (declarative (user c)) (varNames (user c))
              (extensible (user c))
              (set_value x (Data v true configurable) (properties (user c)))))
        (Normal tt)
  | _, _ => assign x v c
  end.

(** InitializeBinding for the name of a lexical declaration. *)
Definition initialize_binding (x : string) (v : V) (c : context env)
    : evaluation env unit :=
  match value_of x (declarative (user c)) with
  | Some (Binding m None) =>
      Evaluation []
        (Context (console c)
           (Environment (set_value x (Binding m (Some v)) (declarative (user c)))
              (varNames (user c)) (extensible (user c)) (properties (user c))))
        (Normal tt)
  | _ => assign x v c
  end.

Fixpoint run_declarators (kind : string) (ds : list (string * node))
    (c : context env) : evaluation env unit :=
  match ds with
  | [] => Evaluation [] c (Normal tt)
  | (x, init) :: rest =>
      and_then (evaluate init c)
        (fun v c' =>
           and_then
             (if String.eqb kind "var" then put_var x v c'
              else initialize_binding x v c')
             (fun _ => run_declarators kind rest))
  end.

(** One statement of the script; [last] is the completion value so far,
    which a declaration leaves as it is.  A class declaration binds its
    name to the value of the class, which is the value of the same class
    written as an expression. *)
Definition run_statement (s : statement) (last : value) (c : context env)
    : evaluation env value :=
  match s with
  | Declaration kind ds =>
      and_then (run_declarators kind ds c) (fun _ c' => Evaluation [] c' (Normal last))
  | ClassDeclaration x class =>
      and_then (evaluate class c)
        (fun v c' =>
           and_then (initialize_binding x v c')
                    (fun _ c'' => Evaluation [] c'' (Normal last)))
  | Run s => execute s c
  end.

Fixpoint run_statements (l : list statement) (last : value) (c : context env)
    : evaluation env value :=
  match l with
  | [] => Evaluation [] c (Normal last)
  | s :: rest =>
      and_then (run_statement s last c) (fun v => run_statements rest v)
  end.

(** ScriptEvaluation: the declarations are instantiated, then the
    statements run in order. *)
Definition script_evaluation (script : node) (c : context env)
    : evaluation env value :=
  match fragment script with
  | None => run_script script c
  | Some l =>
      match GlobalDeclarationInstantiation undefined l (user c) with
      | Throw e => Evaluation [] c (Throw e)
      | Normal env' => run_statements l VUndefined (Context (console c) env')
      end
  end.

(** [vm.runInContext(code, context)] for this engine. *)
Definition engine_runInContext (code : string) (c : context env)
    : evaluation env value :=
  match engine_parse code with
  | Throw e => Evaluation [] c (Throw e)
  | Normal script => script_evaluation script c
  end.

(** A platform whose [vm] is this engine. *)
Definition with_engine (P : Platform) : Platform :=
  {| JSON_parse := @JSON_parse P;
     JSON_stringify := @JSON_stringify P;
     hmac_sha256_hex := @hmac_sha256_hex P;
     config_key := @config_key P;
     random_base15 := @random_base15 P;
     util_format := @util_format P;
     util_inspect := @util_inspect P;
     new_Error := @new_Error P;
     recast_parse := @recast_parse P;
     recast_print := @recast_print P;
     bindings := env;
     vm_runInContext := engine_runInContext |}.

End Engine.

(** ** An executable platform *)

(** The rest of the definitions give the kernel a platform to run on, so
    that the theorems can be applied to concrete messages. *)

(** *** JSON *)

(** [JSON.stringify] and [JSON.parse] on the values above.  Numbers are the
    integers written in decimal notation (the only numbers the kernel itself
    writes are execution counts): a text with a fraction or an exponent is
    not read.  Strings are strings of bytes. *)
Module JSON.

Definition quote : ascii := "034"%char.
Definition backslash : ascii := "092"%char.

Definition hex_digit (n : nat) : ascii :=
  nth n (list_ascii_of_string "0123456789abcdef") "0"%char.

(** One character of a string, as [JSON.stringify] writes it. *)
Definition escape (c : ascii) : string :=
  let n := nat_of_ascii c in
  if Nat.eqb n 34 then String backslash (String quote "")
  else if Nat.eqb n 92 then String backslash (String backslash "")
  else if Nat.eqb n 8 then String backslash "b"
  else if Nat.eqb n 12 then String backslash "f"
  else if Nat.eqb n 10 then String backslash "n"
  else if Nat.eqb n 13 then String backslash "r"
  else if Nat.eqb n 9 then String backslash "t"
  else if Nat.ltb n 32 then
    String backslash ("u00" ++ String (hex_digit (n / 16)) (String (hex_digit (n mod 16)) ""))
  else String c "".

Fixpoint escape_all (s : string) : string :=
  match s with
  | EmptyString => ""
  | String c rest => escape c ++ escape_all rest
  end.

Definition quoted (s : string) : string :=
  String quote (escape_all s ++ String quote "").

Fixpoint decimal_digits (fuel : nat) (n : Z) (acc : string) : string :=
  match fuel with
  | O => acc
  | S fuel =>
      let acc' := String (hex_digit (Z.to_nat (n mod 10))) acc in
      if n <? 10 then acc' else decimal_digits fuel (n / 10) acc'
  end.

Definition decimal (n : Z) : string :=
  if n <? 0 then String "-" (decimal_digits (Z.to_nat (Z.log2 (- n)) + 1) (- n) "")
  else decimal_digits (Z.to_nat (Z.log2 n) + 1) n "".

(** [JSON.stringify(v)]: a property whose value is [undefined] is left
    out, an [undefined] element of an array is written [null]. *)
Fixpoint stringify (v : value) : string :=
  match v with
  | VUndefined => ""
  | VNull => "null"
  | VBool true => "true"
  | VBool false => "false"
  | VNum n => decimal n
  | VStr s => quoted s
  | VArr elements =>
      "[" ++ String.concat ","
               (map (fun x => match x with
                              | VUndefined => "null"
                              | _ => stringify x
                              end) elements) ++ "]"
  | VObj props =>
      "{" ++ String.concat ","
               ((fix members (l : list (string * value)) : list string :=
                   match l with
                   | [] => []
                   | (k, VUndefined) :: rest => members rest
                   | (k, x) :: rest => (quoted k ++ ":" ++ stringify x) :: members rest
                   end) props) ++ "}"
  end.

Definition is_space (c : ascii) : bool :=
  let n := nat_of_ascii c in
  Nat.eqb n 32 || Nat.eqb n 9 || Nat.eqb n 10 || Nat.eqb n 13.

Fixpoint skip_spaces (s : string) : string :=
  match s with
  | String c rest => if is_space c then skip_spaces rest else s
  | EmptyString => s
  end.

Definition digit_value (c : ascii) : option Z :=
  let n := nat_of_ascii c in
  if Nat.leb 48 n && Nat.leb n 57 then Some (Z.of_nat (n - 48)) else None.

Definition hex_value (c : ascii) : option nat :=
  let n := nat_of_ascii c in
  if Nat.leb 48 n && Nat.leb n 57 then Some (n - 48)%nat
  else if Nat.leb 97 n && Nat.leb n 102 then Some (n - 87)%nat
  else if Nat.leb 65 n && Nat.leb n 70 then Some (n - 55)%nat
  else None.

(** The word [w] at the head of [s]. *)
Fixpoint expect (w s : string) : option string :=
  match w, s with
  | EmptyString, _ => Some s
  | String a w', String b s' => if Ascii.eqb a b then expect w' s' else None
  | _, _ => None
  end.

(** The characters of a string up to its closing quote. *)
Fixpoint read_string (s : string) : option (string * string) :=
  match s with
  | EmptyString => None
  | String c rest =>
      if Ascii.eqb c quote then Some ("", rest)
      else if Ascii.eqb c backslash then
        match rest with
        | String e rest' =>
            let continue (ch : ascii) (r : string) :=
              match read_string r with
              | Some (str, r') => Some (String ch str, r')
              | None => None
              end in
            if Ascii.eqb e quote then continue quote rest'
            else if Ascii.eqb e backslash then continue backslash rest'
            else if Ascii.eqb e "/" then continue "/"%char rest'
            else if Ascii.eqb e "b" then continue "008"%char rest'
            else if Ascii.eqb e "f" then continue "012"%char rest'
            else if Ascii.eqb e "n" then continue "010"%char rest'
            else if Ascii.eqb e "r" then continue "013"%char rest'
            else if Ascii.eqb e "t" then continue "009"%char rest'
            else if Ascii.eqb e "u" then
              match rest' with
              | String h1 (String h2 (String h3 (String h4 r))) =>
                  match hex_value h1, hex_value h2, hex_value h3, hex_value h4 with
                  | Some 0%nat, Some 0%nat, Some a, Some b =>
                      continue (ascii_of_nat (16 * a + b)) r
                  | _, _, _, _ => None
                  end
              | _ => None
              end
            else None
        | EmptyString => None
        end
      else if Nat.ltb (nat_of_ascii c) 32 then None
      else
        match read_string rest with
        | Some (str, r') => Some (String c str, r')
        | None => None
        end
  end.

Fixpoint read_digits (s : string) (acc : Z) : Z * string :=
  match s with
  | String c rest =>
      match digit_value c with
      | Some d => read_digits rest (10 * acc + d)
      | None => (acc, s)
      end
  | EmptyString => (acc, s)
  end.

(** A number: [0], or a digit from 1 to 9 and more digits. *)
Definition read_natural (s : string) : option (Z * string) :=
  match s with
  | String c rest =>
      match digit_value c with
      | Some 0 =>
          match rest with
          | String c' _ =>
              match digit_value c' with Some _ => None | None => Some (0, rest) end
          | EmptyString => Some (0, rest)
          end
      | Some d => Some (read_digits rest d)
      | None => None
      end
  | EmptyString => None
  end.

Definition no_fraction (r : option (Z * string)) : option (Z * string) :=
  match r with
  | Some (n, String c rest) =>
      if Ascii.eqb c "." || Ascii.eqb c "e" || Ascii.eqb c "E" then None
      else Some (n, String c rest)
  | _ => r
  end.

(** [o[k] = v] while an object is read: a key that is there keeps its
    place and takes the new value. *)
Fixpoint set_prop (k : string) (v : value) (props : list (string * value))
    : list (string * value) :=
  match props with
  | [] => [(k, v)]
  | (k', v') :: rest =>
      if String.eqb k k' then (k, v) :: rest else (k', v') :: set_prop k v rest
  end.

Fixpoint read_value (fuel : nat) (s : string) : option (value * string) :=
  match fuel with
  | O => None
  | S fuel =>
      match skip_spaces s with
      | EmptyString => None
      | String c rest =>
          if Ascii.eqb c "n" then option_map (pair VNull) (expect "ull" rest)
          else if Ascii.eqb c "t" then option_map (pair (VBool true)) (expect "rue" rest)
          else if Ascii.eqb c "f" then option_map (pair (VBool false)) (expect "alse" rest)
          else if Ascii.eqb c quote then
            match read_string rest with
            | Some (str, r) => Some (VStr str, r)
            | None => None
            end
          else if Ascii.eqb c "[" then
            match skip_spaces rest with
            | String "]" r => Some (VArr [], r)
            | _ => read_elements fuel rest []
            end
          else if Ascii.eqb c "{" then
            match skip_spaces rest with
            | String "}" r => Some (VObj [], r)
            | _ => read_members fuel rest []
            end
          else if Ascii.eqb c "-" then
            match no_fraction (read_natural rest) with
            | Some (n, r) => Some (VNum (- n), r)
            | None => None
            end
          else
            match no_fraction (read_natural (String c rest)) with
            | Some (n, r) => Some (VNum n, r)
            | None => None
            end
      end
  end
with read_elements (fuel : nat) (s : string) (acc : list value)
    : option (value * string) :=
  match fuel with
  | O => None
  | S fuel =>
      match read_value fuel s with
      | Some (v, r) =>
          match skip_spaces r with
          | String "," r' => read_elements fuel r' (v :: acc)
          | String "]" r' => Some (VArr (rev (v :: acc)), r')
          | _ => None
          end
      | None => None
      end
  end
with read_members (fuel : nat) (s : string) (acc : list (string * value))
    : option (value * string) :=
  match fuel with
  | O => None
  | S fuel =>
      match skip_spaces s with
      | String c rest =>
          if Ascii.eqb c quote then
            match read_string rest with
            | Some (k, r) =>
                match skip_spaces r with
                | String ":" r' =>
                    match read_value fuel r' with
                    | Some (v, r'') =>
                        match skip_spaces r'' with
                        | String "," r3 => read_members fuel r3 (set_prop k v acc)
                        | String "}" r3 => Some (VObj (set_prop k v acc), r3)
                        | _ => None
                        end
                    | None => None
                    end
                | _ => None
                end
            | None => None
            end
          else None
      | EmptyString => None
      end
  end.

(** [JSON.parse(text)] *)
Definition parse (text : string) : completion value :=
  match read_value (2 * String.length text + 2) text with
  | Some (v, rest) =>
      match skip_spaces rest with
      | EmptyString => Normal v
      | _ => Throw (new_SyntaxError "Unexpected token in JSON")
      end
  | None => Throw (new_SyntaxError "Unexpected token in JSON")
  end.

End JSON.

(** *** HMAC-SHA256 *)

(** SHA-256 (FIPS 180-4) and HMAC (RFC 2104) on strings of bytes, with
    32-bit words as integers. *)
Module SHA256.

Definition w32 (x : Z) : Z := Z.land x 0xffffffff.
Definition add32 (x y : Z) : Z := w32 (x + y).
Definition rotr (n x : Z) : Z := Z.lor (Z.shiftr x n) (w32 (Z.shiftl x (32 - n))).
Definition not32 (x : Z) : Z := Z.lxor x 0xffffffff.

Definition Ch (x y z : Z) : Z := Z.lxor (Z.land x y) (Z.land (not32 x) z).
Definition Maj (x y z : Z) : Z :=
  Z.lxor (Z.lxor (Z.land x y) (Z.land x z)) (Z.land y z).
Definition Sigma0 (x : Z) : Z := Z.lxor (Z.lxor (rotr 2 x) (rotr 13 x)) (rotr 22 x).
Definition Sigma1 (x : Z) : Z := Z.lxor (Z.lxor (rotr 6 x) (rotr 11 x)) (rotr 25 x).
Definition sigma0 (x : Z) : Z := Z.lxor (Z.lxor (rotr 7 x) (rotr 18 x)) (Z.shiftr x 3).
Definition sigma1 (x : Z) : Z := Z.lxor (Z.lxor (rotr 17 x) (rotr 19 x)) (Z.shiftr x 10).

(** The words written in a text of hexadecimal digits, eight digits each. *)
Fixpoint hex_words (s : string) (digits : nat) (acc : Z) : list Z :=
  match s with
  | EmptyString => []
  | String c rest =>
      let acc' :=
        16 * acc + match JSON.hex_value c with Some d => Z.of_nat d | None => 0 end in
      match digits with
      | 7%nat => acc' :: hex_words rest 0 0
      | _ => hex_words rest (S digits) acc'
      end
  end.

(** The round constants: the first 32 bits of the fractional parts of the
    cube roots of the first 64 primes. *)
Definition K : list Z :=
  hex_words
    (
     "428a2f9871374491b5c0fbcfe9b5dba53956c25b59f111f1923f82a4ab1c5ed5" ++
     "d807aa9812835b01243185be550c7dc372be5d7480deb1fe9bdc06a7c19bf174" ++
     "e49b69c1efbe47860fc19dc6240ca1cc2de92c6f4a7484aa5cb0a9dc76f988da" ++
     "983e5152a831c66db00327c8bf597fc7c6e00bf3d5a7914706ca635114292967" ++
     "27b70a852e1b21384d2c6dfc53380d13650a7354766a0abb81c2c92e92722c85" ++
     "a2bfe8a1a81a664bc24b8b70c76c51a3d192e819d6990624f40e3585106aa070" ++
     "19a4c1161e376c082748774c34b0bcb5391c0cb34ed8aa4a5b9cca4f682e6ff3" ++
     "748f82ee78a5636f84c878148cc7020890befffaa4506cebbef9a3f7c67178f2")
    0 0.

(** The initial hash value: the same of the square roots of the first 8
    primes. *)
Definition H0 : list Z :=
  hex_words
    "6a09e667bb67ae853c6ef372a54ff53a510e527f9b05688c1f83d9ab5be0cd19"
    0 0.

Definition bytes_of (s : string) : list Z :=
  map (fun c => Z.of_nat (nat_of_ascii c)) (list_ascii_of_string s).

Definition string_of (bytes : list Z) : string :=
  string_of_list_ascii (map (fun b => ascii_of_nat (Z.to_nat b)) bytes).

(** The 64-bit length in bits, most significant byte first. *)
Definition length_bytes (bits : Z) : list Z :=
  map (fun i => Z.land (Z.shiftr bits (8 * (7 - Z.of_nat i))) 0xff) (seq 0 8).

Definition pad (msg : list Z) : list Z :=
  let len := Z.of_nat (length msg) in
  (msg ++ [0x80] ++ repeat 0 (Z.to_nat ((55 - len) mod 64)) ++ length_bytes (8 * len))%list.

(** Big-endian words of a list of bytes. *)
Fixpoint words (fuel : nat) (bytes : list Z) : list Z :=
  match fuel, bytes with
  | S fuel, a :: b :: c :: d :: rest =>
      (Z.shiftl a 24 + Z.shiftl b 16 + Z.shiftl c 8 + d) :: words fuel rest
  | _, _ => []
  end.

(** The message schedule, latest word first. *)
Fixpoint schedule (n : nat) (w : list Z) : list Z :=
  match n with
  | O => w
  | S n =>
      let x := add32 (add32 (sigma1 (nth 1 w 0)) (nth 6 w 0))
                     (add32 (sigma0 (nth 14 w 0)) (nth 15 w 0)) in
      schedule n (x :: w)
  end.

Definition round (st : list Z) (kw : Z * Z) : list Z :=
  match st with
  | [a; b; c; d; e; f; g; h] =>
      let t1 := add32 (add32 (add32 h (Sigma1 e)) (add32 (Ch e f g) (fst kw))) (snd kw) in
      let t2 := add32 (Sigma0 a) (Maj a b c) in
      [add32 t1 t2; a; b; c; add32 d t1; e; f; g]
  | _ => st
  end.

Definition compress (st : list Z) (block : list Z) : list Z :=
  let w := rev (schedule 48 (rev (words 16 block))) in
  map (fun p => add32 (fst p) (snd p))
      (combine st (fold_left round (combine K w) st)).

Fixpoint blocks (fuel : nat) (st : list Z) (bytes : list Z) : list Z :=
  match fuel, bytes with
  | S fuel, _ :: _ => blocks fuel (compress st (firstn 64 bytes)) (skipn 64 bytes)
  | _, _ => st
  end.

Definition word_bytes (w : Z) : list Z :=
  [Z.land (Z.shiftr w 24) 0xff; Z.land (Z.shiftr w 16) 0xff;
   Z.land (Z.shiftr w 8) 0xff; Z.land w 0xff].

Definition digest (msg : list Z) : list Z :=
  let padded := pad msg in
  flat_map word_bytes (blocks (length padded) H0 padded).

Definition hmac (key msg : list Z) : list Z :=
  let key := if (64 <? Z.of_nat (length key)) then digest key else key in
  let key := (key ++ repeat 0 (64 - length key))%list in
  let ipad := map (Z.lxor 0x36) key in
  let opad := map (Z.lxor 0x5c) key in
  digest (opad ++ digest (ipad ++ msg))%list.

Definition hex (bytes : list Z) : string :=
  string_of_list_ascii
    (flat_map (fun b => [JSON.hex_digit (Z.to_nat (b / 16));
                         JSON.hex_digit (Z.to_nat (b mod 16))]) bytes).

(** [crypto.createHmac('sha256', key).update(data).digest('hex')] *)
Definition hmac_hex (key data : string) : string :=
  hex (hmac (bytes_of key) (bytes_of data)).

End SHA256.

(** *** A fragment of JavaScript *)

(** A reader and a printer for a few forms of statement, and their
    evaluation: declarations with [let], [const], [var] and [class] (a
    class has methods without parameters), blocks, [throw], calls of
    console methods, numbers, [null], names, sums, assignments, and the
    call of a method of a new instance.  They stand for [acorn], for
    [recast.print] and for the engine's expressions when the kernel is run
    on a concrete request. *)
Module Script.

Definition is_word_char (c : ascii) : bool :=
  let n := nat_of_ascii c in
  (Nat.leb 48 n && Nat.leb n 57) || (Nat.leb 65 n && Nat.leb n 90)
  || (Nat.leb 97 n && Nat.leb n 122) || Nat.eqb n 95 || Nat.eqb n 46.

Definition flush (word : string) (l : list string) : list string :=
  match word with EmptyString => l | _ => word :: l end.

(** The tokens of a source text: words, and single punctuation marks. *)
Fixpoint tokens (s : string) (word : string) : list string :=
  match s with
  | EmptyString => flush word []
  | String c rest =>
      if is_word_char c then tokens rest (word ++ String c "")
      else if JSON.is_space c then flush word (tokens rest "")
      else flush word (String c "" :: tokens rest "")
  end.

Definition is_number (w : string) : bool :=
  match JSON.read_natural w with
  | Some (_, EmptyString) => true
  | _ => false
  end.

Definition is_name (w : string) : bool :=
  match w with
  | String c _ => is_word_char c && negb (is_number w)
                  && negb (existsb (String.eqb w)
                       ["let"; "const"; "var"; "class"; "throw"; "null"])
  | EmptyString => false
  end.

Definition Identifier (x : string) : node := Node "Identifier" [("name", x)] [].
Definition Literal (raw : string) : node := Node "Literal" [("raw", raw)] [].
(** A method [m() { body }], and a class with methods. *)
Definition Method (m : string) (body : list node) : node :=
  Node "MethodDefinition" [("key", m)]
    [Node "FunctionExpression" [] [Node "BlockStatement" [] body]].
Definition Class (type x : string) (methods : list node) : node :=
  Node type [] [Node "Identifier" [("name", x)] []; Node "ClassBody" [] methods].
(** [new x().m()] *)
Definition MethodCall (x m : string) : node :=
  Node "CallExpression" []
    [Node "MemberExpression" []
       [Node "NewExpression" [] [Identifier x]; Identifier m]].
Definition VariableDeclaration (kind x : string) (init : node) : node :=
  Node "VariableDeclaration" [("kind", kind)]
    [Node "VariableDeclarator" [] [Identifier x; init]].
Definition ExpressionStatement (e : node) : node := Node "ExpressionStatement" [] [e].
Definition ThrowStatement (e : node) : node := Node "ThrowStatement" [] [e].
Definition BlockStatement (body : list node) : node := Node "BlockStatement" [] body.
Definition Program (body : list node) : node := Node "Program" [] body.
Definition Sum (l r : node) : node := Node "BinaryExpression" [("operator", "+")] [l; r].
Definition ConsoleCall (m : string) (arg : node) : node :=
  Node "CallExpression" []
    [Node "MemberExpression" [] [Identifier "console"; Identifier m]; arg].

Section Classes.

(** The reader of the statements of a block, up to its closing brace. *)
Variable block : list string -> option (list node * list string).

(** The methods of a class body, [m() { ... }] each, up to the closing
    brace of the body. *)
Fixpoint read_methods (fuel : nat) (ts : list string)
    : option (list node * list string) :=
  match fuel, ts with
  | S fuel, m :: rest =>
      if String.eqb m "}" then Some ([], ts)
      else
        match rest with
        | open :: close :: brace :: rest' =>
            if is_name m && String.eqb open "(" && String.eqb close ")"
               && String.eqb brace "{"
            then
              match block rest' with
              | Some (body, close' :: rest'') =>
                  if String.eqb close' "}" then
                    match read_methods fuel rest'' with
                    | Some (methods, r) => Some (Method m body :: methods, r)
                    | None => None
                    end
                  else None
              | _ => None
              end
            else None
        | _ => None
        end
  | _, _ => None
  end.

(** What follows the word [class]: a name and a body. *)
Definition read_class (type : string) (ts : list string)
    : option (node * list string) :=
  match ts with
  | x :: open :: rest =>
      if is_name x && String.eqb open "{" then
        match read_methods (length rest) rest with
        | Some (methods, close :: rest') =>
            if String.eqb close "}" then Some (Class type x methods, rest') else None
        | _ => None
        end
      else None
  | _ => None
  end.

Definition read_atom (ts : list string) : option (node * list string) :=
  match ts with
  | [] => None
  | w :: rest =>
      if String.eqb w "class" then read_class "ClassExpression" rest
      else if String.eqb w "new" then
        match rest with
        | x :: open :: close :: m :: open' :: close' :: rest' =>
            if is_name x && String.eqb open "(" && String.eqb close ")"
               && String.prefix "." m && String.eqb open' "(" && String.eqb close' ")"
            then Some (MethodCall x (substring 1 (String.length m - 1) m), rest')
            else None
        | _ => None
        end
      else if String.eqb w "null" then Some (Literal "null", rest)
      else if is_number w then Some (Literal w, rest)
      else if is_name w then Some (Identifier w, rest)
      else None
  end.

(** An atom, a sum of two atoms, or an assignment of an atom to an atom. *)
Definition read_expression (ts : list string) : option (node * list string) :=
  match read_atom ts with
  | Some (l, op :: rest) =>
      if String.eqb op "+" then
        match read_atom rest with
        | Some (r, rest') => Some (Sum l r, rest')
        | None => None
        end
      else if String.eqb op "=" then
        match read_atom rest with
        | Some (r, rest') =>
            Some (Node "AssignmentExpression" [("operator", "=")] [l; r], rest')
        | None => None
        end
      else Some (l, op :: rest)
  | r => r
  end.

End Classes.

(** The method [m] of a word [console.m]. *)
Definition console_method_named (w : string) : option string :=
  if String.prefix "console." w
  then Some (substring 8 (String.length w - 8) w) else None.

Definition starts_with (w : string) (ts : list string) : bool :=
  match ts with
  | t :: _ => String.eqb t w
  | [] => false
  end.

Definition is_kind (w : string) : bool :=
  existsb (String.eqb w) ["let"; "const"; "var"].

Fixpoint read_statement (fuel : nat) (ts : list string) : option (node * list string) :=
  match fuel with
  | O => None
  | S fuel =>
      match ts with
      | [] => None
      | w :: rest =>
          if String.eqb w "{" then
            match read_statements fuel rest with
            | Some (body, close :: rest') =>
                if String.eqb close "}" then Some (BlockStatement body, rest') else None
            | _ => None
            end
          else if String.eqb w "class" then
            read_class (read_statements fuel) "ClassDeclaration" rest
          else if String.eqb w "throw" then
            option_map (fun r => (ThrowStatement (fst r), snd r))
                       (read_expression (read_statements fuel) rest)
          else if is_kind w then
            match rest with
            | x :: equals :: rest' =>
                if is_name x && String.eqb equals "=" then
                  option_map (fun r => (VariableDeclaration w x (fst r), snd r))
                             (read_expression (read_statements fuel) rest')
                else None
            | _ => None
            end
          else if starts_with "(" rest then
            match console_method_named w,
                  read_expression (read_statements fuel) (tl rest) with
            | Some m, Some (arg, close :: rest') =>
                if String.eqb close ")"
                then Some (ExpressionStatement (ConsoleCall m arg), rest') else None
            | _, _ => None
            end
          else
            option_map (fun r => (ExpressionStatement (fst r), snd r))
                       (read_expression (read_statements fuel) ts)
      end
  end
with read_statements (fuel : nat) (ts : list string) : option (list node * list string) :=
  match fuel with
  | O => None
  | S fuel =>
      match ts with
      | [] => Some ([], [])
      | w :: rest =>
          if String.eqb w "}" then Some ([], ts)
          else if String.eqb w ";" then read_statements fuel rest
          else
            match read_statement fuel ts with
            | Some (s, rest') =>
                match read_statements fuel rest' with
                | Some (more, rest'') => Some (s :: more, rest'')
                | None => None
                end
            | None => None
            end
      end
  end.

(** The program a source text is, or a [SyntaxError]. *)
Definition read (source : string) : completion node :=
  let ts := tokens source "" in
  match read_statements (2 * length ts + 2) ts with
  | Some (body, []) => Normal (Program body)
  | _ => Throw (new_SyntaxError "Unexpected token")
  end.

(** The code of a syntax tree. *)
Fixpoint print (n : node) : string :=
  let 'Node t a c := n in
  let parts := map print c in
  let part (i : nat) := nth i parts "" in
  let field (k : string) := match attr k a with Some v => v | None => "" end in
  if String.eqb t "Program" then String.concat "; " parts
  else if String.eqb t "BlockStatement" then
    match parts with [] => "{ }" | _ => "{ " ++ String.concat "; " parts ++ " }" end
  else if String.eqb t "VariableDeclaration" then field "kind" ++ " " ++ String.concat ", " parts
  else if String.eqb t "VariableDeclarator" then part 0%nat ++ " = " ++ part 1%nat
  else if String.eqb t "ClassDeclaration" then "class " ++ part 0%nat ++ " " ++ part 1%nat
  else if String.eqb t "ClassExpression" then "class " ++ part 0%nat ++ " " ++ part 1%nat
  else if String.eqb t "ClassBody" then
    match parts with [] => "{ }" | _ => "{ " ++ String.concat " " parts ++ " }" end
  else if String.eqb t "MethodDefinition" then field "key" ++ part 0%nat
  else if String.eqb t "FunctionExpression" then "() " ++ part 0%nat
  else if String.eqb t "AssignmentExpression" then part 0%nat ++ " = " ++ part 1%nat
  else if String.eqb t "NewExpression" then "new " ++ part 0%nat ++ "()"
  else if String.eqb t "ThrowStatement" then "throw " ++ part 0%nat
  else if String.eqb t "ExpressionStatement" then part 0%nat
  else if String.eqb t "BinaryExpression" then part 0%nat ++ " " ++ field "operator" ++ " " ++ part 1%nat
  else if String.eqb t "CallExpression" then part 0%nat ++ "(" ++ part 1%nat ++ ")"
  else if String.eqb t "MemberExpression" then part 0%nat ++ "." ++ part 1%nat
  else if String.eqb t "Identifier" then field "name"
  else if String.eqb t "Literal" then field "raw"
  else "".

(** [recast.parse(source, ...)]: the source is converted to a string. *)
Definition recast_parse (source : value) : completion node :=
  match source with
  | VStr s => read s
  | VNum n => read (JSON.decimal n)
  | VNull => read "null"
  | VUndefined => read "undefined"
  | VBool true => read "true"
  | VBool false => read "false"
  | _ => Throw (new_SyntaxError "Unexpected token")
  end.

Definition new_ReferenceError (x : string) : value :=
  VObj [("name", VStr "ReferenceError"); ("message", VStr (x ++ " is not defined"));
        ("stack", VStr ("ReferenceError: " ++ x ++ " is not defined"))].

Definition not_initialized (x : string) : value :=
  VObj [("name", VStr "ReferenceError");
        ("message", VStr ("Cannot access '" ++ x ++ "' before initialization"));
        ("stack", VStr ("ReferenceError: Cannot access '" ++ x
                        ++ "' before initialization"))].

Definition new_Error (message : string) : value :=
  VObj [("name", VStr "Error"); ("message", VStr message);
        ("stack", VStr ("Error: " ++ message))].

Definition env : Type := environment value.

Definition pure {A} (c : context env) (r : completion A) : evaluation env A :=
  Evaluation [] c r.

(** The statements of the method [m] of a class. *)
Definition method_body (class : node) (m : string) : option (list node) :=
  match class with
  | Node _ _ [_; Node _ _ methods] =>
      match find (fun d => match attr "key" (attrs_of d) with
                           | Some k => String.eqb k m
                           | None => false
                           end) methods with
      | Some (Node _ _ [Node _ _ [Node _ _ body]]) => Some body
      | _ => None
      end
  | _ => None
  end.

(** The body of a method, when it is made of declarations of numbers and
    of assignments to the names it declares; [locals] tells for each name
    whether it may be assigned to.  An assignment to a constant throws. *)
Fixpoint run_body (body : list node) (locals : list (string * bool))
    : completion value :=
  match body with
  | [] => Normal VUndefined
  | Node t a [Node t' _ [Node _ ia _; init]] :: rest =>
      match attr "name" ia with
      | Some y =>
          if negb (String.eqb (type_of init) "Literal")
          then Throw (new_Error "not in the fragment")
          else if String.eqb t "VariableDeclaration" then
            run_body rest
              (set_value y
                 (negb (match attr "kind" a with
                        | Some k => String.eqb k "const"
                        | None => false
                        end)) locals)
          else if String.eqb t "ExpressionStatement"
                  && String.eqb t' "AssignmentExpression" then
            match value_of y locals with
            | Some true => run_body rest locals
            | Some false => Throw (new_TypeError "Assignment to constant variable.")
            | None => Throw (new_Error "not in the fragment")
            end
          else Throw (new_Error "not in the fragment")
      | None => Throw (new_Error "not in the fragment")
      end
  | _ => Throw (new_Error "not in the fragment")
  end.

(** [new C().m()] for the value [v] of the class [C]: the class is read
    back from its definition, and the body of [m] runs. *)
Definition call_method (v : value) (m : string) : completion value :=
  match v with
  | VObj [(k, VStr text)] =>
      match read text with
      | Normal (Node _ _ [class]) =>
          if String.eqb k "class" then
            match method_body class m with
            | Some body => run_body body []
            | None => Throw (new_TypeError (m ++ " is not a function"))
            end
          else Throw (new_Error "not in the fragment")
      | _ => Throw (new_Error "not in the fragment")
      end
  | _ => Throw (new_Error "not in the fragment")
  end.

(** The value of an atom or of a sum of two numbers; a class evaluates to
    an object that records its definition, and a call of a method of a
    new instance runs the body of the method. *)
Fixpoint evaluate (e : node) (c : context env) : evaluation env value :=
  let 'Node t a args := e in
  if String.eqb t "Literal" then
    match attr "raw" a with
    | Some "null" => pure c (Normal VNull)
    | Some raw =>
        match JSON.read_natural raw with
        | Some (n, EmptyString) => pure c (Normal (VNum n))
        | _ => pure c (Throw (new_Error "not in the fragment"))
        end
    | None => pure c (Throw (new_Error "not in the fragment"))
    end
  else if String.eqb t "Identifier" then
    match attr "name" a with
    | Some x =>
        match value_of x (declarative (user c)) with
        | Some (Binding _ (Some v)) => pure c (Normal v)
        | Some (Binding _ None) => pure c (Throw (not_initialized x))
        | None =>
            match value_of x (properties (user c)) with
            | Some (Data v _ _) => pure c (Normal v)
            | Some (Accessor _) => pure c (Throw (new_Error "not in the fragment"))
            | None => pure c (Throw (new_ReferenceError x))
            end
        end
    | None => pure c (Throw (new_Error "not in the fragment"))
    end
  else if String.eqb t "ClassExpression" then
    pure c (Normal (VObj [("class", VStr (print e))]))
  else if String.eqb t "BinaryExpression" then
    match map (fun x => result (evaluate x c)) args with
    | [Normal (VNum x); Normal (VNum y)] => pure c (Normal (VNum (x + y)))
    | [Throw x; _] => pure c (Throw x)
    | [_; Throw y] => pure c (Throw y)
    | _ => pure c (Throw (new_Error "not in the fragment"))
    end
  else if String.eqb t "CallExpression" then
    match args with
    | [Node _ _ [Node _ _ [class]; Node _ ma _]] =>
        match result (evaluate class c), attr "name" ma with
        | Normal v, Some m => pure c (call_method v m)
        | Throw x, _ => pure c (Throw x)
        | _, _ => pure c (Throw (new_Error "not in the fragment"))
        end
    | _ => pure c (Throw (new_Error "not in the fragment"))
    end
  else pure c (Throw (new_Error "not in the fragment")).

Definition method_named (m : string) : option console_method :=
  if String.eqb m "log" then Some log
  else if String.eqb m "debug" then Some debug
  else if String.eqb m "info" then Some info
  else if String.eqb m "warn" then Some warn
  else if String.eqb m "error" then Some error
  else if String.eqb m "dir" then Some dir
  else if String.eqb m "trace" then Some trace
  else if String.eqb m "assert" then Some assert
  else None.

(** The callee and the argument of [console.m(arg)]. *)
Definition console_call_of (e : node) : option (string * node) :=
  match e with
  | Node t _ [Node t' _ [_; Node _ a _]; arg] =>
      if String.eqb t "CallExpression" && String.eqb t' "MemberExpression"
      then option_map (fun m => (m, arg)) (attr "name" a) else None
  | _ => None
  end.

(** An expression statement, a call of a console method, or [throw]. *)
Definition execute (s : node) (c : context env) : evaluation env value :=
  match s with
  | Node t _ [e] =>
      if String.eqb t "ThrowStatement" then
        match result (evaluate e c) with
        | Normal v => pure c (Throw v)
        | Throw x => pure c (Throw x)
        end
      else if String.eqb t "ExpressionStatement" then
        match console_call_of e with
        | Some (m, arg) =>
            match method_named m, result (evaluate arg c) with
            | Some m, Normal v => Evaluation [Call m [v]] c (Normal VUndefined)
            | _, Throw x => pure c (Throw x)
            | None, _ => pure c (Throw (new_TypeError "console method is not a function"))
            end
        | None => evaluate e c
        end
      else pure c (Throw (new_Error "not in the fragment"))
  | _ => pure c (Throw (new_Error "not in the fragment"))
  end.

(** An assignment to a property that is not writable does nothing, in
    code that is not strict. *)
Definition assign (x : string) (v : value) (c : context env) : evaluation env unit :=
  match has_lexical x (user c), value_of x (properties (user c)) with
  | false, Some (Data _ false _) => pure c (Normal tt)
  | _, _ => pure c (Throw (new_Error "not in the fragment"))
  end.

Definition run_script (script : node) (c : context env) : evaluation env value :=
  pure c (Throw (new_Error "not in the fragment")).

(** [util.inspect(v, { depth: 2 })] and [util.format(...args)] *)
Definition inspect (v : value) : string :=
  match v with
  | VUndefined => "undefined"
  | VStr s => "'" ++ s ++ "'"
  | _ => JSON.stringify v
  end.

Definition format (a : list value) : string :=
  String.concat " " (map (fun v => match v with VStr s => s | _ => inspect v end) a).

(** [Math.random().toString(0x0f)], made deterministic: the n-th call gives
    eight digits and then the number of the call. *)
Definition random_base15 (n : nat) : string :=
  "0.4b1d9e3a" ++ JSON.decimal (Z.of_nat n).

End Script.

(** The platform the examples run on. *)
Definition node_js : Platform :=
  {| JSON_parse := JSON.parse;
     JSON_stringify := JSON.stringify;
     hmac_sha256_hex := SHA256.hmac_hex;
     config_key := "a0436f6c-1916-498b-8eb9-e81ab9368e84";
     random_base15 := Script.random_base15;
     util_format := Script.format;
     util_inspect := Script.inspect;
     new_Error := Script.new_Error;
     recast_parse := Script.recast_parse;
     recast_print := Script.print;
     bindings := environment value;
     vm_runInContext :=
       engine_runInContext value VUndefined Script.evaluate Script.execute
         Script.assign Script.run_script Script.read |}.

(** The context as [vm.createContext] makes it: no script has declared
    anything yet, the global object is extensible, and [undefined] is a
    property of it that is neither writable nor configurable. *)
Definition fresh : environment value :=
  Environment [] [] true [("undefined", Data VUndefined false false)].

(** A request as the front end sends it: no identities, the signature
    computed with the key, and an empty parent header and metadata. *)
Definition request_header (msg_type : string) : value :=
  VObj [("msg_id", VStr "m1"); ("username", VStr "u"); ("session", VStr "s");
        ("msg_type", VStr msg_type); ("version", VStr "5.1")].

Definition request (msg_type : string) (content : value) : list string :=
  let payload :=
    [JSON.stringify (request_header msg_type); "{}"; "{}"; JSON.stringify content] in
  [@DELIM; SHA256.hmac_hex (@config_key node_js) (join payload)] ++ payload.

Definition execute_request_for (code : string) : list string :=
  request "execute_request" (VObj [("code", VStr code)]).

(** ** Messages as the handlers emit them *)

(** The frames on a socket are texts; to say what a handler sent, its
    calls of [iopub] and of [send] on the shell socket are listed with their
    arguments, and [render] gives the frames each call hands to its socket. *)
Section Emissions.

Context {P : Platform}.

Inductive emission : Type :=
| Published (type : string) (content parent : value)
| Replied (ids : list string) (type : string) (content parent : value).

Definition nullish (v : value) : bool :=
  match v with VUndefined | VNull => true | _ => false end.

(** [v.k] where reading it does not throw. *)
Definition property (v : value) (k : string) : value :=
  match v with VObj props => lookup k props | _ => VUndefined end.

(** The token [uuid()] returns at the d-th call of [Math.random]. *)
Definition token (d : nat) : string := substring 10 90 (random_base15 d).

(** The frames [send] builds with [replyId] for the message id. *)
Definition encoded (replyId : string) (ids : list string) (type : string)
    (content parent : value) : list string :=
  frames ids (toHash replyId (property parent "username") type
                     (property parent "session") content parent VUndefined).

(** The number of [uuid()] calls an emission makes. *)
Definition cost (e : emission) : nat :=
  match e with Published _ _ _ => 2 | Replied _ _ _ _ => 1 end.

Definition render (d : nat) (e : emission) : socket * list string :=
  match e with
  | Published type content parent =>
      (iopub_socket, encoded (token (S d)) [token d] type content parent)
  | Replied ids type content parent =>
      (shell, encoded (token d) ids type content parent)
  end.

Fixpoint render_all (d : nat) (es : list emission) : list (socket * list string) :=
  match es with
  | [] => []
  | e :: rest => render d e :: render_all (cost e + d) rest
  end.

Fixpoint total_cost (es : list emission) (d : nat) : nat :=
  match es with
  | [] => d
  | e :: rest => total_cost rest (cost e + d)
  end.

(** The state once the emissions [es] are made from state [k]. *)
Definition emitted (k : kernel) (es : list emission) : kernel :=
  Kernel (executionCount k) (ctx k) (total_cost es (draws k))
         (sent k ++ render_all (draws k) es).

Definition type_of_emission (e : emission) : string :=
  match e with Published t _ _ | Replied _ t _ _ => t end.

Definition content_of (e : emission) : value :=
  match e with Published _ c _ | Replied _ _ c _ => c end.

Definition parent_of (e : emission) : value :=
  match e with Published _ _ p | Replied _ _ _ p => p end.

(** The [execution_count] a message carries in its content, if any. *)
Definition execution_count_of (e : emission) : option Z :=
  match property (content_of e) "execution_count" with
  | VNum n => Some n
  | _ => None
  end.

Definition status_of (e : emission) : value := property (content_of e) "status".

(** The stream event of a console call, for hooks that keep [parent]. *)
Definition stream (name : string) (parent : value) (a : list value) : emission :=
  Published "stream" (VObj [("name", VStr name); ("text", VStr (fmt a))]) parent.

Definition stream_of (parent : value) (c : console_call) : list emission :=
  match method c with
  | log | debug | info | dir => [stream "stdout" parent (args c)]
  | warn | error => [stream "stderr" parent (args c)]
  | trace => [stream "stdout" parent [new_Error (util_format (args c))]]
  | assert =>
      if falsy (hd VUndefined (args c))
      then [stream "stderr" parent (VStr "Assertion failed;" :: tl (args c))]
      else []
  end.

(** What an execute request evaluates: the rewritten code in the context,
    or the error of [rewriteCode]. *)
Definition evaluate_source (source : value) (c : context bindings)
    : evaluation bindings value :=
  match rewriteCode source with
  | Throw e => Evaluation [] c (Throw e)
  | Normal code => vm_runInContext code c
  end.

Definition busy (parent : value) : emission :=
  Published "status" (VObj [("execution_state", VStr "busy")]) parent.

Definition idle (parent : value) : emission :=
  Published "status" (VObj [("execution_state", VStr "idle")]) parent.

Definition execute_input (source : value) (n : Z) (parent : value) : emission :=
  Published "execute_input"
    (VObj [("code", source); ("execution_count", VNum n)]) parent.

Definition execute_result (v : value) (n : Z) (parent : value) : emission :=
  Published "execute_result"
    (VObj [("execution_count", VNum n);
           ("data", VObj [("text/plain", VStr (util_inspect v))])]) parent.

Definition reply_ok (ids : list string) (n : Z) (parent : value) : emission :=
  Replied ids "execute_reply"
    (VObj [("status", VStr "ok");
           ("execution_count", VNum n);
           ("user_expressions", VObj []);
           ("payload", VArr [])]) parent.

Definition error_event (e : value) (parent : value) : emission :=
  Published "error"
    (VObj [("ename", property e "name"); ("evalue", property e "message");
           ("traceback", VArr [property e "stack"])]) parent.

Definition reply_error (ids : list string) (e : value) (n : Z) (parent : value)
    : emission :=
  Replied ids "execute_reply"
    (VObj [("status", VStr "error");
           ("ename", property e "name");
           ("evalue", property e "message");
           ("traceback", VArr [property e "stack"]);
           ("execution_count", VNum n);
           ("user_expressions", VObj []);
           ("payload", VArr [])]) parent.

(** What follows the evaluation: result and reply, or error and reply, and
    then the idle status; nothing when the value thrown is [null] or
    [undefined], since reading [e.name] throws inside the [catch] block. *)
Definition conclusion (data : message) (n : Z) (r : completion value)
    : list emission :=
  match r with
  | Normal v =>
      [execute_result v n (header data); reply_ok (uuids data) n (header data);
       idle (header data)]
  | Throw e =>
      if nullish e then []
      else [error_event e (header data);
            reply_error (uuids data) e n (header data);
            idle (header data)]
  end.

(** Everything an execute request emits, when its number is [n] and its
    evaluation is [ev]. *)
Definition execute_emissions (data : message) (source : value) (n : Z)
    (ev : evaluation bindings value) : list emission :=
  [busy (header data); execute_input source n (header data)]
  ++ flat_map (stream_of (header data)) (calls ev)
  ++ conclusion data n (result ev).

(** How the handler completes: normally, unless the [catch] block threw. *)
Definition execute_completion (r : completion value) : completion unit :=
  match r with
  | Normal _ => Normal tt
  | Throw e =>
      match get e "name" with
      | Throw t => Throw t
      | Normal _ => Normal tt
      end
  end.

(** The messages of the kinds that go with an execution count, each with
    the count it carries. *)
Definition counted (e : emission) : bool :=
  existsb (String.eqb (type_of_emission e))
    ["execute_input"; "execute_result"; "error"; "execute_reply"].

Definition counts (es : list emission) : list (string * option Z) :=
  map (fun e => (type_of_emission e, execution_count_of e)) (filter counted es).

(** The counts the messages of one type carry, in the order sent. *)
Definition carried (type : string) (es : list emission) : list (option Z) :=
  map execution_count_of
      (filter (fun e => String.eqb (type_of_emission e) type) es).

(** [1, 2, ..., n], each as the count of a message. *)
Definition numbers (n : nat) : list (option Z) :=
  map (fun i => Some (Z.of_nat i)) (seq 1 n).

(** What a request with number [n] is to carry: the count in its
    [execute_input], in its [execute_result] and in its [execute_reply]; the
    [error] event has no count. *)
Definition counts_of_request (n : Z) (ok : bool) : list (string * option Z) :=
  [("execute_input", Some n);
   (if ok then ("execute_result", Some n) else ("error", None));
   ("execute_reply", Some n)].

Fixpoint counts_from (n : Z) (oks : list bool) : list (string * option Z) :=
  match oks with
  | [] => []
  | ok :: rest => counts_of_request (n + 1) ok ++ counts_from (n + 1) rest
  end.

(** The frames are those of an execute request: they decode, and the
    header's [msg_type] is [execute_request]. *)
Definition is_execute_request (args : list string) : Prop :=
  exists data, parse args = Normal data /\
               property (header data) "msg_type" = VStr "execute_request".

End Emissions.

(** ** What the rewriter changes *)

Definition is_var (a : list (string * string)) : bool :=
  match attr "kind" a with
  | Some k => String.eqb k "var"
  | None => false
  end.

(** Every [VariableDeclaration] of the tree, at any depth, is a [var]
    declaration. *)
Fixpoint all_var (n : node) : bool :=
  let 'Node t a c := n in
  (negb (String.eqb t "VariableDeclaration") || is_var a) && forallb all_var c.

(** [only_kinds_changed n n']: the tree [n'] is the tree [n], node for node,
    but for the [kind] of [VariableDeclaration] nodes, which may have been
    set to [var]. *)
Inductive only_kinds_changed : node -> node -> Prop :=
| same_node (t : string) (a : list (string * string)) (c c' : list node) :
    Forall2 only_kinds_changed c c' ->
    only_kinds_changed (Node t a c) (Node t a c')
| kind_set (a : list (string * string)) (c c' : list node) :
    Forall2 only_kinds_changed c c' ->
    only_kinds_changed (Node "VariableDeclaration" a c)
                       (Node "VariableDeclaration" (set_attr "kind" "var" a) c').

(** [statement_rewritten s s']: the statement [s'] stands in the rewritten
    program where [s] stood.  A class declaration is replaced by a [var]
    declaration with one declarator, whose initializer is the class as an
    expression, with the attributes and the children of the declaration,
    and whose id is the id of that class; every other statement is kept.
    In both cases the nodes below have changed in nothing but the kind of
    their variable declarations. *)
Inductive statement_rewritten : node -> node -> Prop :=
| class_replaced (a : list (string * string)) (c c' : list node) :
    Forall2 only_kinds_changed c c' ->
    statement_rewritten
      (Node "ClassDeclaration" a c)
      (Node "VariableDeclaration" [("kind", "var")]
         [Node "VariableDeclarator" []
            [id_of (Node "ClassExpression" a c'); Node "ClassExpression" a c']])
| statement_kept (s s' : node) :
    is_type "ClassDeclaration" s = false ->
    only_kinds_changed s s' ->
    statement_rewritten s s'.




(** ** Requests that declare a name *)

Section Declarations.

Context {P : Platform}.
Variable V : Type.
Variable undefined : V.
Variable engine_parse : string -> completion node.




(** The code of the request, when it has one. *)
Definition code_of (data : message) : value := property (content data) "code".

(** What a request emits when it succeeds with value [v], its number being
    [n], and its code making no console call. *)
Definition success (data : message) (n : Z) (v : value) : list emission :=
  [busy (header data);
   execute_input (code_of data) n (header data);
   execute_result v n (header data);
   reply_ok (uuids data) n (header data);
   idle (header data)].

End Declarations.

(** ** Concrete messages *)

(** The decoded execute request for a piece of code. *)
Definition execute_data (code : string) : message :=
  Message (request_header "execute_request") (VObj [("code", VStr code)]) [].

(** The payload frames of an execute request, and the same request with
    the signature replaced. *)
Definition payload_for (code : string) : list string :=
  [JSON.stringify (request_header "execute_request"); "{}"; "{}";
   JSON.stringify (VObj [("code", VStr code)])].

Definition forged_request_for (code : string) : list string :=
  ["client"; @DELIM; "forged"] ++ payload_for code.

(** The process started on the example platform, and what it has sent once
    it has handled some events. *)
Definition start : @kernel node_js := @boot node_js fresh.

Definition started : @process node_js := Running start.

Definition sent_after (evs : list event) : list (socket * list string) :=
  sent (state_of (run started evs)).







(** The type of a message of the log and the [execution_count] of its
    content, read back from its frames. *)
Definition count_on_wire (m : socket * list string) : value * value :=
  match @parse node_js (snd m) with
  | Normal data =>
      (property (header data) "msg_type", property (content data) "execution_count")
  | Throw e => (VUndefined, VUndefined)
  end.



(** The frames [send] hands to the socket in the state after start. *)
Definition frames_sent (m : @M node_js unit) : list (list string) :=
  map snd (sent (snd (m start))).

(** ** Messages on the wire *)

Section Wire.

Context {P : Platform}.

(** An array of frames that carries the HMAC of its four payload frames,
    computed with the key, right after the delimiter. *)
Definition well_signed (data : list string) : Prop :=
  exists (ids payload : list string),
    length payload = 4%nat
    /\ data = (ids ++ DELIM :: hmac_sha256_hex config_key (join payload) :: payload)%list.

(** A message of the process's log that is an echo on the heartbeat socket
    or is well signed. *)
Definition echo_or_signed (m : socket * list string) : Prop :=
  fst m = hb \/ well_signed (snd m).

(** An emission that answers the request [data]: its parent is the header
    of the request, and a message on the shell socket goes to the
    identities of the request. *)
Definition answers (data : message) (e : emission) : Prop :=
  parent_of e = header data
  /\ match e with
     | Replied ids _ _ _ => ids = uuids data
     | Published _ _ _ => True
     end.

(** A stream event.  Stream events are what the console hooks send; user
    code decides when a hook is called, and which: the hooks of the request
    being served, or a hook of an earlier request that it has kept. *)
Definition is_stream (e : emission) : bool :=
  String.eqb (type_of_emission e) "stream".

(** The two messages that conclude the request [data] whose number is [n]:
    an [execute_result] and a reply with status [ok], or an [error] event
    and a reply with status [error].  The reply carries the number, and so
    does the result; both messages have the header of the request as
    parent, and the reply goes to its identities. *)
Definition concludes (data : message) (n : Z) (outcome : list emission) : Prop :=
  exists c1 c2 : value,
    property c2 "execution_count" = VNum n
    /\ ((outcome = [Published "execute_result" c1 (header data);
                    Replied (uuids data) "execute_reply" c2 (header data)]
         /\ property c1 "execution_count" = VNum n
         /\ property c2 "status" = VStr "ok")
        \/ (outcome = [Published "error" c1 (header data);
                       Replied (uuids data) "execute_reply" c2 (header data)]
            /\ property c2 "status" = VStr "error")).

(** The stream a console method writes to. *)
Definition stream_name (m : console_method) : string :=
  match m with
  | warn | error | assert => "stderr"
  | _ => "stdout"
  end.

End Wire.

(** ** Starting the kernel *)

(** The sockets are bound one after the other before any handler is
    registered.  [zmq] and the connection file are the platform's. *)
Section Startup.

(** [`${v}`] for a value of the connection file. *)
Variable to_string : value -> string.
(** The error [sock.bind(endpoint, callback)] passes to its callback, if
    any, for a socket of the given type when the listed sockets are bound
    already. *)
Variable zmq_bind : list (string * string) -> string -> string -> option value.
(** [config], the connection file. *)
Variable config : value.

(** A computation of the startup: it binds sockets, and it may be
    rejected. *)
Definition startup_step (A : Type) : Type :=
  list (string * string) -> completion A * list (string * string).

(** [createSocket(type, address, port)], awaited: the socket, or the error
    the promise is rejected with. *)
Definition createSocket (type address : string) (port : value)
    : startup_step (string * string) :=
  fun bound =>
    let endpoint := address ++ ":" ++ to_string port in
    match zmq_bind bound type endpoint with
    | Some err => (Throw err, bound)
    | None => (Normal (type, endpoint), (bound ++ [(type, endpoint)])%list)
    end.

Definition and_next {A B} (m : startup_step A) (f : A -> startup_step B)
    : startup_step B :=
  fun bound =>
    match m bound with
    | (Normal a, bound') => f a bound'
    | (Throw e, bound') => (Throw e, bound')
    end.

(** [config.k] *)
Definition config_field (v : value) (k : string) : startup_step value :=
  fun bound => (get v k, bound).

(** The body of the [async] function up to the registration of the
    handlers: the result is normal when the handlers are registered. *)
Definition startup : startup_step unit :=
  and_next (config_field config "transport") (fun transport =>
  and_next (config_field config "ip") (fun ip =>
  let address := to_string transport ++ "://" ++ to_string ip in
  and_next (config_field config "hb_port") (fun hb_port =>
  and_next (createSocket "rep" address hb_port) (fun _ =>
  and_next (config_field config "iopub_port") (fun iopub_port =>
  and_next (createSocket "pub" address iopub_port) (fun _ =>
  and_next (config_field config "control_port") (fun control_port =>
  and_next (createSocket "router" address control_port) (fun _ =>
  and_next (config_field config "stdin_port") (fun stdin_port =>
  and_next (createSocket "router" address stdin_port) (fun _ =>
  and_next (config_field config "shell_port") (fun shell_port =>
  and_next (createSocket "router" address shell_port) (fun _ =>
  fun bound => (Normal tt, bound))))))))))))).

(** The five sockets in the order they are bound, with their endpoints. *)
Definition plan : list (string * string) :=
  let address :=
    to_string (property config "transport") ++ "://"
    ++ to_string (property config "ip") in
  map (fun p => (fst p, address ++ ":" ++ to_string (property config (snd p))))
      [("rep", "hb_port"); ("pub", "iopub_port"); ("router", "control_port");
       ("router", "stdin_port"); ("router", "shell_port")].

End Startup.

(** ** More concrete messages *)

(** The frames and the decoded form of a message with the given header
    frame and content frame, as the example platform reads them. *)
Definition raw_request (header_json content_json : string) : list string :=
  [@DELIM; "sig"; header_json; "{}"; "{}"; content_json].

Definition info_data : message :=
  Message (request_header "kernel_info_request") (VObj []) [].

Definition shutdown_data : message :=
  Message (request_header "shutdown_request") (VObj []) [].

(** A connection file, the conversion of its values to text, and a [zmq]
    whose third bind fails. *)
Definition example_config : value :=
  VObj [("transport", VStr "tcp"); ("ip", VStr "127.0.0.1");
        ("hb_port", VNum 5001); ("iopub_port", VNum 5002);
        ("control_port", VNum 5003); ("stdin_port", VNum 5004);
        ("shell_port", VNum 5005); ("key", VStr "secret")].

Definition example_to_string (v : value) : string := Script.format [v].

Definition third_bind_fails (bound : list (string * string)) (type endpoint : string)
    : option value :=
  if Nat.eqb (length bound) 2 then Some (Script.new_Error "EADDRINUSE") else None.

(** * Properties *)

(** ** Emissions *)

Section EmissionFacts.

Context {P : Platform}.

Lemma get_defined (v : value) (k : string) :
  nullish v = false -> get v k = Normal (property v k).
Proof. destruct v; simpl; intros H; try discriminate H; reflexivity. Qed.

Lemma get_nullish (v : value) (k : string) :
  nullish v = true -> exists msg, get v k = Throw (new_TypeError msg).
Proof. destruct v; simpl; intros H; try discriminate H; eexists; reflexivity. Qed.

Lemma total_cost_app (es es' : list emission) (d : nat) :
  total_cost (es ++ es') d = total_cost es' (total_cost es d).
Proof. revert d; induction es as [|e es IH]; intros d; simpl; auto. Qed.

Lemma render_all_app (es es' : list emission) (d : nat) :
  render_all d (es ++ es') = (render_all d es ++ render_all (total_cost es d) es')%list.
Proof.
  revert d; induction es as [|e es IH]; intros d; simpl; auto.
  now rewrite IH.
Qed.

Lemma emitted_nil (k : kernel) : emitted k [] = k.
Proof. destruct k; unfold emitted; simpl. now rewrite app_nil_r. Qed.

Lemma emitted_app (k : kernel) (es es' : list emission) :
  emitted (emitted k es) es' = emitted k (es ++ es').
Proof.
  unfold emitted; simpl.
  now rewrite total_cost_app, render_all_app, app_assoc.
Qed.

Lemma emitted_cons (k : kernel) (e : emission) (es : list emission) :
  emitted (emitted k [e]) es = emitted k (e :: es).
Proof. apply (emitted_app k [e] es). Qed.

Lemma send_emits (ids : list string) (type : string) (content parent : value)
    (k : kernel) :
  nullish parent = false ->
  send shell ids type content parent VUndefined k
  = (Normal tt, emitted k [Replied ids type content parent]).
Proof.
  intros H. unfold send, bind, lift, uuid, socket_send; simpl.
  rewrite !(get_defined _ _ H). reflexivity.
Qed.

Lemma iopub_emits (type : string) (content parent : value) (k : kernel) :
  nullish parent = false ->
  iopub type content parent k = (Normal tt, emitted k [Published type content parent]).
Proof.
  intros H. unfold iopub, send, bind, lift, uuid, socket_send; simpl.
  rewrite !(get_defined _ _ H). reflexivity.
Qed.

Lemma hooks_emits (parent : value) (c : console_call) (k : kernel) :
  nullish parent = false ->
  hooks parent c k = (Normal tt, emitted k (stream_of parent c)).
Proof.
  intros H. unfold hooks, stream_of, hook_log, hook_error, stream.
  destruct (method c); try (apply iopub_emits; assumption).
  destruct (falsy _).
  - apply iopub_emits; assumption.
  - unfold ret. now rewrite emitted_nil.
Qed.

Lemma console_of_emitted (k : kernel) (es : list emission) :
  ctx (emitted k es) = ctx k.
Proof. reflexivity. Qed.

Lemma calls_emit (parent : value) (cs : list console_call) (k : kernel) :
  nullish parent = false ->
  console (ctx k) = ConsoleHooks parent ->
  for_each console_call_in_context cs k
  = (Normal tt, emitted k (flat_map (stream_of parent) cs)).
Proof.
  intros H. revert k. induction cs as [|c cs IH]; intros k Hc; simpl.
  - unfold ret. now rewrite emitted_nil.
  - unfold bind, console_call_in_context at 1. rewrite Hc.
    rewrite (hooks_emits _ _ _ H), IH by (simpl; assumption).
    now rewrite emitted_app.
Qed.

End EmissionFacts.

(** ** The execute request *)

Section ExecuteFacts.
Context {P : Platform}.

Lemma runInContext_spec (code : string) (parent : value) (k : kernel) :
  nullish parent = false ->
  console (ctx k) = ConsoleHooks parent ->
  let ev := vm_runInContext code (ctx k) in
  runInContext code k
  = (result ev,
     emitted (Kernel (executionCount k) (context_after ev) (draws k) (sent k))
             (flat_map (stream_of parent) (calls ev))).
Proof.
  intros H Hc ev. unfold runInContext. fold ev. unfold bind.
  rewrite (calls_emit parent _ _ H Hc). unfold set_context, lift. reflexivity.
Qed.

Lemma execute_try_spec (data : message) (source : value) (k : kernel) :
  nullish (header data) = false ->
  get (content data) "code" = Normal source ->
  console (ctx k) = ConsoleHooks (header data) ->
  let ev := evaluate_source source (ctx k) in
  let k' := emitted (Kernel (executionCount k) (context_after ev) (draws k) (sent k))
                    (flat_map (stream_of (header data)) (calls ev)) in
  execute_try data k
  = match result ev with
    | Normal v =>
        (Normal tt,
         emitted k' [execute_result v (executionCount k) (header data);
                     reply_ok (uuids data) (executionCount k) (header data)])
    | Throw e => (Throw e, k')
    end.
Proof.
  intros H Hs Hc ev k'. unfold execute_try. unfold bind at 1. unfold lift at 1.
  rewrite Hs. unfold bind at 1. unfold lift at 1.
  subst k' ev. unfold evaluate_source.
  destruct (rewriteCode source) as [code|e]; simpl.
  - unfold bind at 1. rewrite (runInContext_spec code _ k H Hc). simpl.
    destruct (result (vm_runInContext code (ctx k))) as [v|e]; [|reflexivity].
    unfold bind at 1. unfold get_executionCount at 1. unfold bind at 1.
    rewrite iopub_emits by assumption.
    unfold bind at 1. unfold get_executionCount at 1.
    rewrite send_emits by assumption.
    rewrite !emitted_app. reflexivity.
  - rewrite emitted_nil. destruct k; reflexivity.
Qed.

Lemma execute_catch_spec (data : message) (e : value) (k : kernel) :
  nullish (header data) = false ->
  nullish e = false ->
  execute_catch data e k
  = (Normal tt,
     emitted k [error_event e (header data);
                reply_error (uuids data) e (executionCount k) (header data)]).
Proof.
  intros H He. unfold execute_catch, bind, lift.
  rewrite !(get_defined e _ He).
  rewrite iopub_emits by assumption.
  unfold get_executionCount. rewrite send_emits by assumption.
  rewrite emitted_app. reflexivity.
Qed.

Lemma execute_catch_nullish (data : message) (e : value) (k : kernel) :
  nullish e = true ->
  execute_catch data e k
  = (match get e "name" with Throw t => Throw t | Normal _ => Normal tt end, k).
Proof.
  intros He. unfold execute_catch, bind, lift.
  destruct (get_nullish e "name" He) as [msg ->]. reflexivity.
Qed.

Lemma execute_request_spec (data : message) (source : value) (k : kernel) :
  nullish (header data) = false ->
  get (content data) "code" = Normal source ->
  let n := executionCount k + 1 in
  let ev := evaluate_source source
              (Context (ConsoleHooks (header data)) (user (ctx k))) in
  execute_request data k
  = (execute_completion (result ev),
     emitted (Kernel n (context_after ev) (draws k) (sent k))
             (execute_emissions data source n ev)).
Proof.
  intros H Hs n ev. unfold execute_request.
  unfold bind at 1. rewrite iopub_emits by assumption.
  unfold bind at 1. unfold increment_executionCount at 1.
  unfold bind at 1. unfold lift at 1. rewrite Hs.
  unfold bind at 1. unfold get_executionCount at 1.
  unfold bind at 1. rewrite iopub_emits by assumption.
  unfold bind at 1. unfold set_console at 1. unfold set_context at 1.
  unfold bind at 1. unfold try_catch.
  rewrite (execute_try_spec data source _ H Hs) by reflexivity.
  cbn [executionCount ctx draws sent emitted user console].
  fold n. fold ev.
  unfold execute_emissions, execute_completion.
  destruct (result ev) as [v|e] eqn:Hr.
  - rewrite iopub_emits by assumption. unfold emitted; simpl.
    rewrite !total_cost_app, !render_all_app. simpl.
    rewrite <- !app_assoc. simpl. reflexivity.
  - destruct (nullish e) eqn:He.
    + rewrite execute_catch_nullish by assumption.
      destruct (get_nullish e "name" He) as [msg ->].
      unfold conclusion. rewrite He. unfold emitted; simpl.
      rewrite !app_nil_r. rewrite <- !app_assoc. reflexivity.
    + rewrite execute_catch_spec by assumption.
      rewrite (get_defined e _ He).
      rewrite iopub_emits by assumption.
      unfold conclusion. rewrite He. unfold emitted; simpl.
      rewrite !total_cost_app, !render_all_app. simpl.
      rewrite <- !app_assoc. simpl. reflexivity.
Qed.

(** The shell handler on the frames of an execute request. *)
Lemma shell_on_execute_request (args : list string) (data : message) (k : kernel) :
  parse args = Normal data ->
  property (header data) "msg_type" = VStr "execute_request" ->
  nullish (header data) = false /\
  shell_on_message args k = execute_request data k.
Proof.
  intros Hp Ht.
  assert (Hn : nullish (header data) = false).
  { destruct (header data); simpl in *; try discriminate; reflexivity. }
  split; [assumption|].
  unfold shell_on_message, bind, lift. rewrite Hp.
  rewrite (get_defined _ _ Hn), Ht. reflexivity.
Qed.

Lemma run_stopped (p : process) (evs : list event) :
  is_running p = false -> run p evs = p.
Proof. destruct p, evs; simpl; intros H; try discriminate H; reflexivity. Qed.

Lemma counts_app (es es' : list emission) :
  counts (es ++ es') = (counts es ++ counts es')%list.
Proof. unfold counts. now rewrite filter_app, map_app. Qed.

Lemma counts_streams (parent : value) (cs : list console_call) :
  counts (flat_map (stream_of parent) cs) = [].
Proof.
  induction cs as [|c cs IH]; simpl; [reflexivity|].
  rewrite counts_app, IH, app_nil_r.
  unfold stream_of. destruct (method c); try reflexivity.
  destruct (falsy _); reflexivity.
Qed.

(** The counts an execute request carries, when it is served. *)
Lemma counts_of_execute (data : message) (source : value) (n : Z)
    (ev : evaluation bindings value) :
  execute_completion (result ev) = Normal tt ->
  counts (execute_emissions data source n ev)
  = counts_of_request n (match result ev with Normal _ => true | Throw _ => false end).
Proof.
  intros Hc. unfold execute_emissions.
  rewrite (counts_app [_; _]), counts_app, counts_streams.
  destruct (result ev) as [v|e]; simpl in *; [reflexivity|].
  destruct (nullish e) eqn:He.
  - destruct (get_nullish e "name" He) as [msg Hm]. rewrite Hm in Hc. discriminate Hc.
  - reflexivity.
Qed.

(** One execute request that leaves the process running. *)
Lemma served_request (args : list string) (k : kernel) :
  is_execute_request args ->
  is_running (handle k (ShellMessage args)) = true ->
  exists (es : list emission) (ok : bool) (c : context bindings),
    handle k (ShellMessage args)
    = Running (emitted (Kernel (executionCount k + 1) c (draws k) (sent k)) es)
    /\ counts es = counts_of_request (executionCount k + 1) ok.
Proof.
  intros (data & Hp & Ht) Hr.
  destruct (shell_on_execute_request args data k Hp Ht) as [Hn He].
  unfold handle in *. rewrite He in *.
  destruct (get (content data) "code") as [source|e] eqn:Hs.
  - rewrite (execute_request_spec data source k Hn Hs) in *.
    set (ev := evaluate_source source _) in *.
    destruct (execute_completion (result ev)) as [[]|e] eqn:Hc;
      [|discriminate Hr].
    eexists _, _, _. split; [reflexivity|].
    now apply counts_of_execute.
  - exfalso. revert Hr. unfold execute_request.
    unfold bind at 1. rewrite iopub_emits by assumption.
    unfold bind at 1. unfold increment_executionCount at 1.
    unfold bind at 1. unfold lift at 1. rewrite Hs. discriminate.
Qed.

Lemma length_counts_from (n : Z) (oks : list bool) :
  length (counts_from n oks) = (3 * length oks)%nat.
Proof. revert n; induction oks as [|ok oks IH]; intros n; simpl; [reflexivity|]. rewrite IH. lia. Qed.

(** Requests served one after the other carry consecutive counts. *)
Lemma served_requests (requests : list (list string)) (k : kernel) :
  Forall is_execute_request requests ->
  is_running (run (Running k) (map ShellMessage requests)) = true ->
  exists (es : list emission) (oks : list bool) (c : context bindings),
    run (Running k) (map ShellMessage requests)
    = Running (emitted (Kernel (executionCount k + Z.of_nat (length requests)) c
                               (draws k) (sent k)) es)
    /\ length oks = length requests
    /\ counts es = counts_from (executionCount k) oks.
Proof.
  revert k. induction requests as [|args requests IH]; intros k Hall Hrun.
  - exists [], [], (ctx k). simpl. rewrite Z.add_0_r.
    repeat split. f_equal. destruct k; unfold emitted; simpl. now rewrite app_nil_r.
  - inversion Hall as [|? ? Hreq Hrest]; subst.
    cbn [map run] in *.
    destruct (is_running (handle k (ShellMessage args))) eqn:Hh.
    + destruct (served_request args k Hreq Hh) as (es & ok & c & Hk & Hcounts).
      rewrite Hk in *.
      destruct (IH _ Hrest Hrun) as (es' & oks & c' & Hk' & Hlen & Hcounts').
      exists (es ++ es')%list, (ok :: oks), c'.
      rewrite Hk'. cbn [executionCount draws sent emitted length].
      repeat split.
      * f_equal. unfold emitted. cbn [executionCount ctx draws sent].
        rewrite total_cost_app, render_all_app, app_assoc.
        f_equal. lia.
      * now rewrite Hlen.
      * rewrite counts_app, Hcounts, Hcounts'. reflexivity.
    + rewrite run_stopped in Hrun by assumption. congruence.
Qed.

End ExecuteFacts.

(** ** The codec *)

Section CodecFacts.

Context {P : Platform}.

Lemma indexOf_lower_bound (l : list string) (x : string) : -1 <= indexOf l x.
Proof.
  induction l as [|y l IH]; simpl; [lia|].
  destruct (String.eqb y x); [lia|].
  destruct (indexOf l x <? 0) eqn:E; [lia|]. apply Z.ltb_ge in E. lia.
Qed.

(** The delimiter is found right after identities that do not contain it. *)
Lemma indexOf_after (ids rest : list string) (x : string) :
  indexOf ids x = -1 ->
  indexOf (ids ++ x :: rest) x = Z.of_nat (length ids).
Proof.
  induction ids as [|y ids IH]; intros H.
  - simpl. now rewrite String.eqb_refl.
  - simpl in H. cbn [app indexOf length].
    destruct (String.eqb y x); [discriminate H|].
    pose proof (indexOf_lower_bound ids x) as Hb.
    destruct (indexOf ids x <? 0) eqn:E.
    + apply Z.ltb_lt in E. rewrite IH by lia.
      destruct (Z.of_nat (length ids) <? 0) eqn:E'; [apply Z.ltb_lt in E'; lia|]. lia.
    + apply Z.ltb_ge in E. lia.
Qed.

Lemma slice_identities {A} (ids rest : list A) :
  slice (ids ++ rest) 0 (Z.of_nat (length ids)) = ids.
Proof.
  unfold slice, relative_index. rewrite length_app. simpl.
  destruct (Z.of_nat (length ids) <? 0) eqn:E; [apply Z.ltb_lt in E; lia|].
  rewrite Z.min_l by lia.
  replace (Z.to_nat (Z.min 0 _)) with 0%nat by lia.
  rewrite Nat2Z.id, Nat.sub_0_r. simpl.
  rewrite firstn_app, Nat.sub_diag, firstn_all. simpl. apply app_nil_r.
Qed.

Lemma slice_payload {A} (ids payload : list A) (d s : A) :
  slice_from (ids ++ d :: s :: payload) (Z.of_nat (length ids) + 2) = payload.
Proof.
  unfold slice_from, relative_index. rewrite length_app. simpl.
  destruct (Z.of_nat (length ids) + 2 <? 0) eqn:E; [apply Z.ltb_lt in E; lia|].
  rewrite Z.min_l by lia.
  replace (Z.to_nat (Z.of_nat (length ids) + 2)) with (length ids + 2)%nat by lia.
  rewrite skipn_app. rewrite skipn_all2 by lia.
  replace (length ids + 2 - length ids)%nat with 2%nat by lia. reflexivity.
Qed.

(** Decoding frames whose identities do not contain the delimiter: the
    first and the fourth frame after the signature are parsed, nothing
    else is looked at. *)
Lemma parse_frames (ids payload : list string) (signature : string) :
  indexOf ids DELIM = -1 ->
  parse (ids ++ DELIM :: signature :: payload)
  = match JSON_parse_element (nth_error payload 0) with
    | Throw e => Throw e
    | Normal header =>
        match JSON_parse_element (nth_error payload 3) with
        | Throw e => Throw e
        | Normal content => Normal (Message header content ids)
        end
    end.
Proof.
  intros H. unfold parse.
  rewrite (indexOf_after ids (signature :: payload) DELIM H).
  rewrite slice_identities, slice_payload. reflexivity.
Qed.

(** C1.  The code does not verify signatures: [parse] never looks at the
    signature frame.  Frames with any signature at all decode, and are
    handled, exactly as the same frames with the HMAC-SHA256 of the four
    payload strings in its place; no message is rejected for its
    signature. *)
Theorem signature_is_not_verified (ids payload : list string) (signature : string)
    (k : kernel) :
  indexOf ids DELIM = -1 ->
  let signed := hmac_sha256_hex config_key (join payload) in
  parse (ids ++ DELIM :: signature :: payload)
  = parse (ids ++ DELIM :: signed :: payload)
  /\ shell_on_message (ids ++ DELIM :: signature :: payload) k
     = shell_on_message (ids ++ DELIM :: signed :: payload) k
  /\ control_on_message (ids ++ DELIM :: signature :: payload) k
     = control_on_message (ids ++ DELIM :: signed :: payload) k.
Proof.
  intros H signed.
  assert (E : parse (ids ++ DELIM :: signature :: payload)
              = parse (ids ++ DELIM :: signed :: payload)).
  { now rewrite !parse_frames. }
  unfold shell_on_message, control_on_message. rewrite E. auto.
Qed.



(** C4, as the code has it.  When the identities do not contain the
    delimiter, decoding the frames [send] produces gives back the
    identities, the header [send] built (with the parent's [username] and
    [session]) and the content, as far as [JSON.parse] undoes
    [JSON.stringify] on these two; the decoded message has no metadata and
    no parent header, those frames are not read. *)
Theorem decode_of_encode (s : socket) (ids : list string) (type : string)
    (content parent metadata : value) (k : kernel) :
  let header :=
    reply_header (token (draws k)) (property parent "username") type
                 (property parent "session") in
  indexOf ids DELIM = -1 ->
  nullish parent = false ->
  JSON_parse (JSON_stringify header) = Normal header ->
  JSON_parse (JSON_stringify content) = Normal content ->
  exists data : list string,
    send s ids type content parent metadata k
    = (Normal tt,
       Kernel (executionCount k) (ctx k) (S (draws k)) (sent k ++ [(s, data)]))
    /\ parse data = Normal (Message header content ids).
Proof.
  intros header Hids Hparent Hh Hc.
  eexists. split.
  - unfold send, bind, uuid, lift, socket_send.
    rewrite !(get_defined _ _ Hparent). reflexivity.
  - unfold frames. cbn [app]. rewrite parse_frames by assumption.
    unfold toHash, JSON_parse_element. cbn [nth_error].
    fold (token (draws k)). fold header. now rewrite Hh, Hc.
Qed.

(** C6, as the code has it.  In frames that hold the delimiter, [parse]
    throws what [JSON.parse] throws, exactly when the header frame or the
    content frame (the first and the fourth after the signature) does not
    parse; a frame that is missing is parsed as the text [undefined], so
    fewer than four payload frames make it throw as well.  The parent
    header and the metadata are not parsed: whatever stands in their
    frames, the decoded message is the same. *)
Theorem decode_fails_on_header_or_content (ids payload : list string)
    (signature : string) :
  indexOf ids DELIM = -1 ->
  (forall e,
     parse (ids ++ DELIM :: signature :: payload) = Throw e <->
     JSON_parse_element (nth_error payload 0) = Throw e
     \/ (exists h, JSON_parse_element (nth_error payload 0) = Normal h
                   /\ JSON_parse_element (nth_error payload 3) = Throw e))
  /\ (forall header parent_header metadata parent_header' metadata' rest,
        payload = header :: parent_header :: metadata :: rest ->
        parse (ids ++ DELIM :: signature :: header :: parent_header' :: metadata' :: rest)
        = parse (ids ++ DELIM :: signature :: payload))
  /\ (forall missing,
        (length payload < 4)%nat ->
        JSON_parse "undefined" = Throw missing ->
        exists e, parse (ids ++ DELIM :: signature :: payload) = Throw e).
Proof.
  intros Hids. split; [|split].
  - intros e. rewrite parse_frames by assumption.
    destruct (JSON_parse_element (nth_error payload 0)) as [h|e0].
    + destruct (JSON_parse_element (nth_error payload 3)) as [c|e3].
      * split; [discriminate|]. intros [H|(h' & _ & H)]; discriminate H.
      * split.
        -- intros H. right. exists h. split; [reflexivity|]. congruence.
        -- intros [H|(h' & _ & H)]; [discriminate H|]. congruence.
    + split.
      * intros H. left. congruence.
      * intros [H|(h' & H & _)]; [congruence|discriminate H].
  - intros header parent_header metadata parent_header' metadata' rest ->.
    now rewrite !parse_frames.
  - intros missing Hlen Hu. rewrite parse_frames by assumption.
    assert (E : nth_error payload 3 = None) by (apply nth_error_None; lia).
    rewrite E. unfold JSON_parse_element at 2. rewrite Hu.
    destruct (JSON_parse_element (nth_error payload 0)); eauto.
Qed.

End CodecFacts.

(** ** The rewriter *)

Section RewriterFacts.

Lemma node_induction (Q : node -> Prop) :
  (forall t a c, Forall Q c -> Q (Node t a c)) -> forall n, Q n.
Proof.
  intros H. fix IH 1. intros [t a c]. apply H.
  induction c as [|n c IHc]; constructor; [apply IH|apply IHc].
Qed.

Lemma attr_set_attr (k v : string) (a : list (string * string)) :
  attr k (set_attr k v a) = Some v.
Proof.
  induction a as [|[k' v'] a IH]; simpl.
  - now rewrite String.eqb_refl.
  - destruct (String.eqb k k') eqn:E; simpl; rewrite ?String.eqb_refl, ?E; auto.
Qed.

Lemma set_attr_same (k v : string) (a : list (string * string)) :
  attr k a = Some v -> set_attr k v a = a.
Proof.
  induction a as [|[k' v'] a IH]; simpl; [discriminate|].
  destruct (String.eqb k k') eqn:E.
  - apply String.eqb_eq in E. intros [= ->]. now subst.
  - intros H. now rewrite IH.
Qed.

Lemma type_of_walk (n : node) : type_of (walk n) = type_of n.
Proof. destruct n as [t a c]; simpl. now destruct (String.eqb t _). Qed.

Lemma is_var_set (a : list (string * string)) : is_var (set_attr "kind" "var" a) = true.
Proof. unfold is_var. now rewrite attr_set_attr. Qed.

(** A tree whose declarations are all [var] already is left as it is. *)
Lemma walk_all_var (n : node) : all_var n = true -> walk n = n.
Proof.
  induction n as [t a c IH] using node_induction. simpl. intros H.
  apply andb_prop in H as [Hk Hc].
  assert (E : map walk c = c).
  { induction c as [|m c IHc]; [reflexivity|]. simpl in *.
    apply andb_prop in Hc as [Hm Hc]. inversion IH; subst.
    f_equal; auto. }
  rewrite E. destruct (String.eqb t "VariableDeclaration"); [|reflexivity].
  simpl in Hk. unfold is_var in Hk. simpl.
  destruct (attr "kind" a) as [k|] eqn:Ea; [|discriminate Hk].
  apply String.eqb_eq in Hk; subst k. now rewrite set_attr_same.
Qed.

Lemma all_var_walk (n : node) : all_var (walk n) = true.
Proof.
  induction n as [t a c IH] using node_induction. simpl.
  assert (E : forallb all_var (map walk c) = true).
  { induction IH; simpl; [reflexivity|]. now rewrite H, IHIH. }
  destruct (String.eqb t "VariableDeclaration") eqn:Et; simpl; rewrite Et, E; simpl.
  - now rewrite is_var_set.
  - reflexivity.
Qed.

Lemma only_kinds_changed_walk (n : node) : only_kinds_changed n (walk n).
Proof.
  induction n as [t a c IH] using node_induction. simpl.
  assert (E : Forall2 only_kinds_changed c (map walk c)).
  { induction IH; simpl; constructor; assumption. }
  destruct (String.eqb t "VariableDeclaration") eqn:Et; simpl.
  - apply String.eqb_eq in Et; subst t. now constructor.
  - now constructor.
Qed.

Lemma all_var_children (n : node) :
  all_var n = true -> forallb all_var (children_of n) = true.
Proof. destruct n as [t a c]; simpl. intros H. now apply andb_prop in H. Qed.

Lemma all_var_walk_statement (s : node) : all_var (walk_statement s) = true.
Proof.
  unfold walk_statement. destruct (is_type "ClassDeclaration" (walk s)).
  - pose proof (all_var_children _ (all_var_walk s)) as H.
    unfold class_as_variable, id_of. simpl. rewrite H.
    destruct (children_of (walk s)) as [|i c]; simpl in *; [reflexivity|].
    apply andb_prop in H as [-> _]. reflexivity.
  - apply all_var_walk.
Qed.

Lemma only_kinds_changed_children (c : list node) :
  Forall2 only_kinds_changed c (map walk c).
Proof. induction c; simpl; constructor; auto using only_kinds_changed_walk. Qed.

Lemma statement_rewritten_walk (s : node) : statement_rewritten s (walk_statement s).
Proof.
  unfold walk_statement.
  destruct (is_type "ClassDeclaration" (walk s)) eqn:E.
  - destruct s as [t a c]. unfold is_type in E. rewrite type_of_walk in E.
    simpl in E. apply String.eqb_eq in E. subst t.
    apply class_replaced, only_kinds_changed_children.
  - apply statement_kept; [|apply only_kinds_changed_walk].
    unfold is_type in *. now rewrite type_of_walk in E.
Qed.

(** The kinds are changed in one way only: a tree that differs from [n] in
    the kind of declarations alone, and whose declarations are all [var]
    declarations, is [walk n]. *)
Lemma walk_is_the_only_change (n : node) :
  forall n', only_kinds_changed n n' -> all_var n' = true -> n' = walk n.
Proof.
  induction n as [t a c IH] using node_induction.
  assert (Hc : forall c', Forall2 only_kinds_changed c c' ->
                          forallb all_var c' = true -> c' = map walk c).
  { clear t a. induction IH as [|m c Hm _ IHc]; intros c' H2 Hv;
      inversion H2; subst; [reflexivity|].
    simpl in Hv. apply andb_prop in Hv as [Hv1 Hv2]. simpl. f_equal; auto. }
  intros n' H Hv. inversion H as [t' a' c0 c' Hf|a' c0 c' Hf]; subst; simpl in Hv;
    apply andb_prop in Hv as [Hk Hv]; rewrite (Hc _ Hf Hv); simpl.
  - destruct (String.eqb t "VariableDeclaration") eqn:Et; [|reflexivity].
    simpl in Hk. unfold is_var in Hk.
    destruct (attr "kind" a) as [k|] eqn:Ea; [|discriminate Hk].
    apply String.eqb_eq in Hk. subst k. simpl. now rewrite set_attr_same.
  - reflexivity.
Qed.

(** C8, as the code has it.  The program keeps its statements in place,
    one for one.  A class declaration among them is replaced by a [var]
    declaration that binds the id of the class to the class as an
    expression; every other statement is kept.  Below, nothing is changed
    but the kind of the variable declarations, at every depth: all of them
    are [var] declarations afterwards, also those nested in blocks,
    functions, loops and in the replaced class, and this determines the
    rewritten tree; a tree that holds no other kind of declaration is
    unchanged.  A class declaration below the top level keeps its type, as
    every node that is walked does. *)
Theorem rewrite_changes_declarations (t : string) (a : list (string * string))
    (body : list node) :
  (exists body',
     rewrite (Node t a body) = Node t a body'
     /\ Forall2 statement_rewritten body body'
     /\ forallb all_var body' = true)
  /\ (forall n, only_kinds_changed n (walk n) /\ all_var (walk n) = true
                /\ type_of (walk n) = type_of n)
  /\ (forall n n', only_kinds_changed n n' -> all_var n' = true -> n' = walk n)
  /\ (forall n, all_var n = true -> walk n = n).
Proof.
  split; [|split; [|split]].
  - exists (map walk_statement body). simpl. split; [reflexivity|]. split.
    + induction body; simpl; constructor; auto using statement_rewritten_walk.
    + induction body as [|s body IH]; simpl; [reflexivity|].
      now rewrite all_var_walk_statement, IH.
  - intros n. split; [apply only_kinds_changed_walk|].
    split; [apply all_var_walk|apply type_of_walk].
  - apply walk_is_the_only_change.
  - apply walk_all_var.
Qed.

End RewriterFacts.

(** ** Declarations across requests *)

Section DeclarationFacts.

Context {P : Platform}.
Variable V : Type.
Variable undefined : V.
Variable evaluate : node -> context (environment V) -> evaluation (environment V) V.
Variable execute : node -> context (environment V) -> evaluation (environment V) value.
Variable assign : string -> V -> context (environment V) -> evaluation (environment V) unit.
Variable run_script : node -> context (environment V) -> evaluation (environment V) value.
Variable engine_parse : string -> completion node.

Let Q : Platform :=
  with_engine V undefined evaluate execute assign run_script engine_parse P.



Lemma value_of_new {A} (x : string) (v : A) (l : list (string * A)) :
  value_of x l = None -> value_of x (l ++ [(x, v)]) = Some v.
Proof.
  induction l as [|[y w] l IH]; simpl.
  - now rewrite String.eqb_refl.
  - destruct (String.eqb x y); [discriminate|exact IH].
Qed.






Lemma get_property (v s : value) (k : string) :
  get v k = Normal s -> property v k = s.
Proof. destruct v; simpl; intros H; inversion H; reflexivity. Qed.



End DeclarationFacts.

(** ** Declarations that are not rewritten *)

Section Contrast.

Variable V : Type.
Variable undefined : V.
Variable evaluate : node -> context (environment V) -> evaluation (environment V) V.
Variable execute : node -> context (environment V) -> evaluation (environment V) value.
Variable assign : string -> V -> context (environment V) -> evaluation (environment V) unit.
Variable run_script : node -> context (environment V) -> evaluation (environment V) value.

Lemma fragment_let (x : string) (init : node) :
  x <> "console" ->
  fragment (Script.Program [Script.VariableDeclaration "let" x init])
  = Some [Declaration "let" [(x, init)]].
Proof.
  intros Hx. assert (E : String.eqb "console" x = false).
  { apply String.eqb_neq. congruence. }
  unfold fragment. cbn -[mem]. unfold mem. cbn [existsb]. now rewrite E.
Qed.

Lemma value_of_absent {A} (x : string) (l : list (string * A)) :
  mem x (map fst l) = false -> value_of x l = None.
Proof.
  induction l as [|[y w] l IH]; simpl; [reflexivity|].
  destruct (String.eqb x y); [discriminate|exact IH].
Qed.

Lemma mem_set_value {A} (x : string) (v : A) (l : list (string * A)) :
  mem x (map fst (set_value x v l)) = true.
Proof.
  induction l as [|[y w] l IH]; simpl.
  - now rewrite String.eqb_refl.
  - destruct (String.eqb x y) eqn:E; simpl; rewrite ?String.eqb_refl, ?E; auto.
Qed.

(** Without the rewriting, the engine declares [x] lexically, and refuses
    the next script that declares [x]. *)
Lemma unrewritten_redeclaration_is_refused (x : string) (e1 e2 : node) (v1 : V)
    (b : console_binding) (env : environment V) :
  x <> "console" ->
  mem x (varNames env) = false ->
  has_lexical x env = false ->
  restricted x env = false ->
  (forall c, evaluate e1 c = Evaluation [] c (Normal v1)) ->
  exists c1,
    script_evaluation V undefined evaluate execute assign run_script
      (Script.Program [Script.VariableDeclaration "let" x e1]) (Context b env)
    = Evaluation [] c1 (Normal VUndefined)
    /\ script_evaluation V undefined evaluate execute assign run_script
         (Script.Program [Script.VariableDeclaration "let" x e2]) c1
       = Evaluation [] c1
           (Throw (new_SyntaxError
                     ("Identifier '" ++ x ++ "' has already been declared"))).
Proof.
  intros Hx Hvar Hlex Hres Hv.
  exists (Context b
            (Environment
               (set_value x (Binding true (Some v1))
                          (declarative env ++ [(x, Binding true None)]))
               (varNames env) (extensible env) (properties env))).
  split.
  - unfold script_evaluation. rewrite (fragment_let x e1 Hx).
    unfold GlobalDeclarationInstantiation.
    cbn [flat_map lexical_bindings var_names map fst snd app].
    change (String.eqb "let" "let") with true.
    change (String.eqb "let" "var") with false. cbv iota.
    cbn [flat_map map fst snd app find user].
    rewrite Hvar, Hlex, Hres. cbn [orb find fold_left].
    unfold create_lexical. cbn [map fst snd].
    cbn [run_statements run_statement run_declarators].
    unfold and_then at 3. rewrite Hv. cbn [result calls context_after app].
    change (String.eqb "let" "var") with false. cbv iota.
    unfold initialize_binding. cbn [user declarative].
    rewrite (value_of_new x _ _ (value_of_absent x _ Hlex)).
    reflexivity.
  - unfold script_evaluation. rewrite (fragment_let x e2 Hx).
    unfold GlobalDeclarationInstantiation.
    cbn [flat_map lexical_bindings var_names map fst snd app].
    change (String.eqb "let" "let") with true. cbv iota.
    cbn [flat_map map fst snd app find user varNames].
    unfold has_lexical at 1. cbn [declarative].
    rewrite mem_set_value, orb_true_r. reflexivity.
Qed.

End Contrast.

(** ** The execution count *)

Section CountFacts.

Context {P : Platform}.

Lemma carried_counts (type : string) (es : list emission) :
  existsb (String.eqb type)
    ["execute_input"; "execute_result"; "error"; "execute_reply"] = true ->
  carried type es
  = map snd (filter (fun p => String.eqb (fst p) type) (counts es)).
Proof.
  intros Ht. unfold carried, counts.
  induction es as [|e es IH]; simpl; [reflexivity|].
  destruct (String.eqb (type_of_emission e) type) eqn:E.
  - pose proof E as E'. apply String.eqb_eq in E'. unfold counted.
    rewrite E', Ht. cbn [map filter fst snd type_of_emission].
    rewrite E. cbn [map snd]. now rewrite IH.
  - destruct (counted e); simpl; rewrite ?E; exact IH.
Qed.

Lemma numbers_from (type : string) (n : Z) (oks : list bool) :
  type = "execute_input" \/ type = "execute_reply" ->
  map snd (filter (fun p => String.eqb (fst p) type) (counts_from n oks))
  = map (fun i => Some (n + Z.of_nat i)) (seq 1 (length oks)).
Proof.
  intros Ht. revert n. induction oks as [|ok oks IH]; intros n; [reflexivity|].
  cbn [counts_from length seq map]. rewrite filter_app, map_app, IH.
  rewrite <- (seq_shift (length oks) 1), map_map.
  replace (map (fun i => Some (n + 1 + Z.of_nat i)) (seq 1 (length oks)))
    with (map (fun i => Some (n + Z.of_nat (S i))) (seq 1 (length oks)))
    by (apply map_ext; intros i; f_equal; lia).
  replace (n + Z.of_nat 1) with (n + 1) by lia.
  destruct Ht as [-> | ->], ok; reflexivity.
Qed.

Lemma errors_carry_nothing (n : Z) (oks : list bool) :
  Forall (fun c => c = None)
    (map snd (filter (fun p => String.eqb (fst p) "error") (counts_from n oks))).
Proof.
  revert n. induction oks as [|ok oks IH]; intros n; [constructor|].
  cbn [counts_from]. rewrite filter_app, map_app. apply Forall_app. split; [|apply IH].
  destruct ok; repeat constructor.
Qed.

(** C3, as the code has it.  When the kernel has served N execute requests
    since it started (each either succeeded or failed with a reported
    error), the messages it sent are those of a list in which the
    [execute_input] messages carry the counts 1, 2, ..., N in order, the
    [execute_reply] messages carry 1, 2, ..., N in order, and every
    request's [execute_result] carries the count of its [execute_input] and
    [execute_reply]; an [error] event carries no count; the counter stands
    at N. *)
Theorem execution_counts_are_consecutive (initial : bindings)
    (requests : list (list string)) :
  Forall is_execute_request requests ->
  is_running (run (Running (boot initial)) (map ShellMessage requests)) = true ->
  exists (es : list emission) (oks : list bool),
    sent (state_of (run (Running (boot initial)) (map ShellMessage requests)))
    = render_all 0 es
    /\ executionCount
         (state_of (run (Running (boot initial)) (map ShellMessage requests)))
       = Z.of_nat (length requests)
    /\ length oks = length requests
    /\ counts es = counts_from 0 oks
    /\ carried "execute_input" es = numbers (length requests)
    /\ carried "execute_reply" es = numbers (length requests)
    /\ Forall (fun c => c = None) (carried "error" es).
Proof.
  intros Hall Hrun.
  destruct (served_requests requests (boot initial) Hall Hrun)
    as (es & oks & c & Hk & Hlen & Hcounts).
  exists es, oks. rewrite Hk. cbn [state_of emitted sent executionCount boot app draws].
  repeat split; try assumption.
  - rewrite carried_counts by reflexivity.
    rewrite Hcounts, numbers_from by auto. now rewrite Hlen.
  - rewrite carried_counts by reflexivity.
    rewrite Hcounts, numbers_from by auto. now rewrite Hlen.
  - rewrite carried_counts by reflexivity. rewrite Hcounts.
    apply errors_carry_nothing.
Qed.

End CountFacts.

(** ** Failures and the console *)

Section HandlerFacts.

Context {P : Platform}.

(** C5.  The code does not catch every thrown value.  When the evaluation
    throws [null] or [undefined], the [catch] block itself throws a
    [TypeError] on reading [e.name]: the handler is left by that exception
    after the busy status, the [execute_input] and the console output, with
    no [error] event, no [execute_reply] and no idle status. *)
Theorem thrown_null_escapes_the_handler (data : message) (source e : value)
    (k : kernel) :
  let ev := evaluate_source source
              (Context (ConsoleHooks (header data)) (user (ctx k))) in
  nullish (header data) = false ->
  get (content data) "code" = Normal source ->
  result ev = Throw e ->
  nullish e = true ->
  exists message,
    execute_request data k
    = (Throw (new_TypeError message),
       emitted (Kernel (executionCount k + 1) (context_after ev) (draws k) (sent k))
               ([busy (header data);
                 execute_input source (executionCount k + 1) (header data)]
                ++ flat_map (stream_of (header data)) (calls ev))).
Proof.
  intros ev Hn Hs Hr He.
  rewrite (execute_request_spec data source k Hn Hs). fold ev.
  unfold execute_completion, execute_emissions, conclusion. rewrite Hr, He.
  destruct (get_nullish e "name" He) as [msg ->].
  exists msg. now rewrite app_nil_r.
Qed.

(** Sending never touches the execution context. *)
Lemma send_keeps_context (s : socket) (ids : list string) (type : string)
    (content parent metadata : value) (k : kernel) :
  ctx (snd (send s ids type content parent metadata k)) = ctx k.
Proof.
  unfold send, bind, uuid, lift, socket_send.
  destruct (get parent "username"); [|reflexivity].
  destruct (get parent "session"); reflexivity.
Qed.

Lemma iopub_keeps_context (type : string) (content parent : value) (k : kernel) :
  ctx (snd (iopub type content parent k)) = ctx k.
Proof. unfold iopub, bind, uuid. now rewrite send_keeps_context. Qed.

Lemma hooks_keep_context (parent : value) (c : console_call) (k : kernel) :
  ctx (snd (hooks parent c k)) = ctx k.
Proof.
  unfold hooks, hook_log, hook_error.
  destruct (method c); try apply iopub_keeps_context.
  destruct (falsy _); [apply iopub_keeps_context|reflexivity].
Qed.

Lemma state_of_settle (r : completion unit * kernel) : state_of (settle r) = snd r.
Proof. destruct r as [[[]|e] k]; reflexivity. Qed.

(** Only an execute request assigns [context.console]. *)
Lemma handle_keeps_context (k : kernel) (ev : event) :
  (forall args, ev = ShellMessage args -> ~ is_execute_request args) ->
  ctx (state_of (handle k ev)) = ctx k.
Proof.
  intros Hev. destruct ev as [args|args|data more|c]; unfold handle.
  - rewrite state_of_settle. unfold shell_on_message, bind, lift.
    destruct (parse args) as [data|e] eqn:Hp; [|reflexivity].
    destruct (get (header data) "msg_type") as [t|e] eqn:Ht; [|reflexivity].
    destruct (strict_equals_string t "kernel_info_request");
      [apply send_keeps_context|].
    destruct (strict_equals_string t "execute_request") eqn:Hx; [|reflexivity].
    exfalso. apply (Hev args eq_refl). exists data. split; [assumption|].
    rewrite (get_property _ _ _ Ht).
    destruct t; try discriminate Hx. simpl in Hx. apply String.eqb_eq in Hx. now subst.
  - unfold control_on_message, bind, lift.
    destruct (parse args) as [data|e]; [|reflexivity].
    destruct (get (header data) "msg_type") as [t|e]; [|reflexivity].
    destruct (strict_equals_string t "shutdown_request"); reflexivity.
  - reflexivity.
  - rewrite state_of_settle. unfold console_call_in_context.
    destruct (console (ctx k)); try reflexivity. apply hooks_keep_context.
Qed.

(** C10.  Once an execute request is served, and unless its code assigned
    [console] itself, the hooks of that request stay bound: a console call
    made afterwards sends the stream events the hooks of that request
    send, each with the header of that request as parent, and no event
    other than an execute request changes the binding. *)
Theorem console_hooks_outlive_the_request (data : message) (source : value)
    (k : kernel) (c : console_call) :
  let ev := evaluate_source source
              (Context (ConsoleHooks (header data)) (user (ctx k))) in
  nullish (header data) = false ->
  get (content data) "code" = Normal source ->
  execute_completion (result ev) = Normal tt ->
  console (context_after ev) = ConsoleHooks (header data) ->
  exists k',
    execute_request data k = (Normal tt, k')
    /\ console (ctx k') = ConsoleHooks (header data)
    /\ handle k' (ConsoleCallback c)
       = Running (emitted k' (stream_of (header data) c))
    /\ Forall (fun e => type_of_emission e = "stream" /\ parent_of e = header data)
              (stream_of (header data) c)
    /\ forall ev',
         (forall args, ev' = ShellMessage args -> ~ is_execute_request args) ->
         console (ctx (state_of (handle k' ev'))) = ConsoleHooks (header data).
Proof.
  intros ev Hn Hs Hc Hk.
  rewrite (execute_request_spec data source k Hn Hs). fold ev. rewrite Hc.
  eexists. split; [reflexivity|].
  split; [exact Hk|]. split; [|split].
  - unfold handle, console_call_in_context. cbn [ctx emitted]. rewrite Hk.
    now rewrite hooks_emits.
  - unfold stream_of. destruct (method c); repeat constructor.
    destruct (falsy _); repeat constructor.
  - intros ev' Hev. now rewrite handle_keeps_context.
Qed.

End HandlerFacts.

(** ** Bracketing *)

Section BracketingFacts.

Context {P : Platform}.

Lemma streams_are_streams (parent : value) (cs : list console_call) :
  Forall (fun m => type_of_emission m = "stream" /\ parent_of m = parent)
         (flat_map (stream_of parent) cs).
Proof.
  induction cs as [|c cs IH]; simpl; [constructor|].
  apply Forall_app. split; [|exact IH].
  unfold stream_of. destruct (method c); repeat constructor.
  destruct (falsy _); repeat constructor.
Qed.

(** C2.  The code does not bracket every execute request.  When the
    evaluation throws [null] or [undefined], the process dies in the
    handler: after the busy status and the [execute_input] it has sent only
    the stream events of the code's console calls; there is no
    [execute_reply] and no idle status. *)
Theorem idle_is_skipped_when_null_is_thrown (args : list string) (data : message)
    (source e : value) (k : kernel) :
  let ev := evaluate_source source
              (Context (ConsoleHooks (header data)) (user (ctx k))) in
  parse args = Normal data ->
  property (header data) "msg_type" = VStr "execute_request" ->
  get (content data) "code" = Normal source ->
  result ev = Throw e ->
  nullish e = true ->
  exists (t : value) (k' : kernel) (streams : list emission),
    handle k (ShellMessage args) = Crashed t k'
    /\ sent k'
       = (sent k
          ++ render_all (draws k)
               ([busy (header data);
                 execute_input source (executionCount k + 1) (header data)]
                ++ streams))%list
    /\ Forall (fun m => type_of_emission m = "stream" /\ parent_of m = header data)
              streams.
Proof.
  intros ev Hp Ht Hs Hr He.
  destruct (shell_on_execute_request args data k Hp Ht) as [Hn Hx].
  unfold handle. rewrite Hx, (execute_request_spec data source k Hn Hs). fold ev.
  unfold execute_completion, execute_emissions, conclusion. rewrite Hr, He.
  destruct (get_nullish e "name" He) as [msg ->].
  eexists _, _, _. split; [reflexivity|]. split.
  - cbn [sent emitted draws]. now rewrite app_nil_r.
  - apply streams_are_streams.
Qed.

End BracketingFacts.
(** ** The kernel on concrete messages *)

(** The hash function against its published test vectors. *)
Example sha256_abc :
  SHA256.hex (SHA256.digest (SHA256.bytes_of "abc"))
  = "ba7816bf8f01cfea414140de5dae2223b00361a396177a9cb410ff61f20015ad".
Proof. vm_compute. reflexivity. Qed.

Example hmac_sha256_fox :
  SHA256.hmac_hex "key" "The quick brown fox jumps over the lazy dog"
  = "f7bc83f430538424b13298e6aa6fb143ef4d59a14946175997479dbc2d1a3cd8".
Proof. vm_compute. reflexivity. Qed.

(** The example of the specification: [1 + 1] is answered with [2]. *)
Example one_plus_one :
  sent_after [ShellMessage (execute_request_for "1 + 1")]
  = @render_all node_js 0
      (@success node_js (execute_data "1 + 1") 1 (VNum 2)).
Proof. vm_compute. reflexivity. Qed.

(** A request signed with anything is executed. *)
Lemma forged_request_is_executed :
  @parse node_js (["client"] ++ @DELIM :: "forged" :: payload_for "1 + 1")
  = @parse node_js
      (["client"] ++ @DELIM
         :: @hmac_sha256_hex node_js (@config_key node_js) (join (payload_for "1 + 1"))
         :: payload_for "1 + 1")
  /\ @shell_on_message node_js
       (["client"] ++ @DELIM :: "forged" :: payload_for "1 + 1") start
     = @shell_on_message node_js
         (["client"] ++ @DELIM
            :: @hmac_sha256_hex node_js (@config_key node_js) (join (payload_for "1 + 1"))
            :: payload_for "1 + 1") start
  /\ @control_on_message node_js
       (["client"] ++ @DELIM :: "forged" :: payload_for "1 + 1") start
     = @control_on_message node_js
         (["client"] ++ @DELIM
            :: @hmac_sha256_hex node_js (@config_key node_js) (join (payload_for "1 + 1"))
            :: payload_for "1 + 1") start.
Proof.
  apply (@signature_is_not_verified node_js ["client"] (payload_for "1 + 1")
           "forged" start).
  reflexivity.
Defined.

(** A heartbeat of two frames: the first is echoed. *)
Example heartbeat_echoes_the_first_frame :
  sent_after [HeartbeatMessage "ping" ["pong"]] = [(hb, ["ping"])].
Proof. reflexivity. Qed.

(** The forged request runs: the counter is incremented and the reply is
    sent. *)
Example forged_request_runs :
  sent_after [ShellMessage (forged_request_for "1 + 1")]
  = @render_all node_js 0
      (@success node_js
         (Message (request_header "execute_request")
                  (VObj [("code", VStr "1 + 1")]) ["client"]) 1 (VNum 2)).
Proof. vm_compute. reflexivity. Qed.
(** A request whose code throws [null] kills the process after two
    messages. *)
Lemma throw_null_skips_idle :
  exists (t : value) (k' : @kernel node_js) (streams : list emission),
    @handle node_js start (ShellMessage (execute_request_for "throw null")) = Crashed t k'
    /\ sent k'
       = (sent start
          ++ @render_all node_js (draws start)
               ([busy (header (execute_data "throw null"));
                 execute_input (VStr "throw null") (executionCount start + 1)
                               (header (execute_data "throw null"))]
                ++ streams))%list
    /\ Forall (fun m => type_of_emission m = "stream"
                        /\ parent_of m = header (execute_data "throw null"))
              streams.
Proof.
  apply (@idle_is_skipped_when_null_is_thrown node_js
           (execute_request_for "throw null") (execute_data "throw null")
           (VStr "throw null") VNull start);
    vm_compute; reflexivity.
Defined.

(** Three requests, the second of which fails. *)
Lemma three_requests_count_to_three :
  exists (es : list emission) (oks : list bool),
    sent (state_of (run (Running (@boot node_js fresh))
                        (map ShellMessage
                             [execute_request_for "let x = 1";
                              execute_request_for "throw 1";
                              execute_request_for "x + 1"])))
    = @render_all node_js 0 es
    /\ executionCount
         (state_of (run (Running (@boot node_js fresh))
                        (map ShellMessage
                             [execute_request_for "let x = 1";
                              execute_request_for "throw 1";
                              execute_request_for "x + 1"])))
       = 3
    /\ length oks = 3%nat
    /\ counts es = counts_from 0 oks
    /\ carried "execute_input" es = [Some 1; Some 2; Some 3]
    /\ carried "execute_reply" es = [Some 1; Some 2; Some 3]
    /\ Forall (fun c => c = None) (carried "error" es).
Proof.
  apply (@execution_counts_are_consecutive node_js fresh
           [execute_request_for "let x = 1"; execute_request_for "throw 1";
            execute_request_for "x + 1"]).
  - repeat constructor.
    + exists (execute_data "let x = 1"). split; vm_compute; reflexivity.
    + exists (execute_data "throw 1"). split; vm_compute; reflexivity.
    + exists (execute_data "x + 1"). split; vm_compute; reflexivity.
  - vm_compute. reflexivity.
Defined.

(** The messages of a request that fails, as they are on the wire: the
    [error] event has no [execution_count].  And a request that throws
    [null] gets the count 1 on its [execute_input]; the process is gone
    then, and the request after it gets no count at all. *)
Lemma error_event_carries_no_count :
  map count_on_wire (sent_after [ShellMessage (execute_request_for "throw 1")])
  = [(VStr "status", VUndefined); (VStr "execute_input", VNum 1);
     (VStr "error", VUndefined); (VStr "execute_reply", VNum 1);
     (VStr "status", VUndefined)]
  /\ map count_on_wire
         (sent_after [ShellMessage (execute_request_for "throw null");
                      ShellMessage (execute_request_for "1 + 1")])
     = [(VStr "status", VUndefined); (VStr "execute_input", VNum 1)].
Proof. split; vm_compute; reflexivity. Qed.

(** A reply to an execute request decodes to its identities, header and
    content. *)
Lemma reply_decodes :
  exists data : list string,
    @send node_js shell ["client"] "execute_reply"
      (VObj [("status", VStr "ok"); ("execution_count", VNum 1)])
      (request_header "execute_request") VUndefined start
    = (Normal tt,
       Kernel (executionCount start) (ctx start) (S (draws start))
              (sent start ++ [(shell, data)]))
    /\ @parse node_js data
       = Normal (Message
                   (reply_header (@token node_js (draws start)) (VStr "u")
                                 "execute_reply" (VStr "s"))
                   (VObj [("status", VStr "ok"); ("execution_count", VNum 1)])
                   ["client"]).
Proof.
  apply (@decode_of_encode node_js shell ["client"] "execute_reply"
           (VObj [("status", VStr "ok"); ("execution_count", VNum 1)])
           (request_header "execute_request") VUndefined start);
    vm_compute; reflexivity.
Defined.

(** The decoded message is the same whatever the metadata sent, and
    identities that hold the delimiter do not come back. *)
Lemma metadata_and_delimiter_are_lost :
  map (@parse node_js)
      (frames_sent (send shell ["client"] "status" (VObj [])
                         (request_header "execute_request")
                         (VObj [("a", VNum 1)])))
  = map (@parse node_js)
        (frames_sent (send shell ["client"] "status" (VObj [])
                           (request_header "execute_request")
                           (VObj [("a", VNum 2)])))
  /\ map (@parse node_js)
         (frames_sent (send shell ["client"] "status" (VObj [])
                            (request_header "execute_request")
                            (VObj [("a", VNum 1)])))
     = [Normal (Message (reply_header (@token node_js 0) (VStr "u") "status" (VStr "s"))
                        (VObj []) ["client"])]
  /\ map (@parse node_js)
         (frames_sent (send shell [@DELIM] "status" (VObj [])
                            (request_header "execute_request") VUndefined))
     = [Throw (new_SyntaxError "Unexpected token in JSON")].
Proof. repeat split; vm_compute; reflexivity. Qed.

(** A request whose code throws [null]. *)
Lemma throw_null_escapes :
  exists message,
    @execute_request node_js (execute_data "throw null") start
    = (Throw (new_TypeError message),
       @emitted node_js (@Kernel node_js (executionCount start + 1)
                  (context_after
                     (@evaluate_source node_js (VStr "throw null")
                        (Context (ConsoleHooks (header (execute_data "throw null")))
                                 (user (ctx start)))))
                  (draws start) (sent start))
               ([busy (header (execute_data "throw null"));
                 execute_input (VStr "throw null") (executionCount start + 1)
                               (header (execute_data "throw null"))]
                ++ flat_map (@stream_of node_js (header (execute_data "throw null")))
                     (calls (@evaluate_source node_js (VStr "throw null")
                               (Context (ConsoleHooks (header (execute_data "throw null")))
                                        (user (ctx start))))))).
Proof.
  apply (@thrown_null_escapes_the_handler node_js (execute_data "throw null")
           (VStr "throw null") VNull start);
    vm_compute; reflexivity.
Defined.

(** Frames with a content frame that is no JSON, and frames with too few
    payload frames. *)
Lemma malformed_frames_fail :
  (forall e,
     @parse node_js (["client"] ++ @DELIM :: "sig" :: ["{}"; "{}"; "{}"; "{"]) = Throw e <->
     @JSON_parse_element node_js (nth_error ["{}"; "{}"; "{}"; "{"] 0) = Throw e
     \/ (exists h, @JSON_parse_element node_js (nth_error ["{}"; "{}"; "{}"; "{"] 0) = Normal h
                   /\ @JSON_parse_element node_js (nth_error ["{}"; "{}"; "{}"; "{"] 3) = Throw e))
  /\ (forall header parent_header metadata parent_header' metadata' rest,
        ["{}"; "{}"; "{}"; "{"] = header :: parent_header :: metadata :: rest ->
        @parse node_js (["client"] ++ @DELIM :: "sig" :: header :: parent_header' :: metadata' :: rest)
        = @parse node_js (["client"] ++ @DELIM :: "sig" :: ["{}"; "{}"; "{}"; "{"]))
  /\ (forall missing,
        (length ["{}"; "{}"; "{}"; "{"] < 4)%nat ->
        @JSON_parse node_js "undefined" = Throw missing ->
        exists e, @parse node_js (["client"] ++ @DELIM :: "sig" :: ["{}"; "{}"; "{}"; "{"]) = Throw e).
Proof.
  apply (@decode_fails_on_header_or_content node_js ["client"]
           ["{}"; "{}"; "{}"; "{"] "sig").
  reflexivity.
Defined.

(** Frames without delimiter decode, frames with a parent header and
    metadata that are no JSON decode, and frames whose header is no JSON
    end the process. *)
Lemma decoding_is_lenient_and_failure_is_fatal :
  @parse node_js ["a"; "{}"; "b"; "c"; "[]"]
  = Normal (Message (VObj []) (VArr []) ["a"; "{}"; "b"; "c"])
  /\ @parse node_js [@DELIM; "sig"; "{}"; "no json"; "no json"; "[]"]
     = Normal (Message (VObj []) (VArr []) [])
  /\ run started [ShellMessage [@DELIM; "sig"; "no json"; "{}"; "{}"; "{}"]]
     = Crashed (new_SyntaxError "Unexpected token in JSON") start
  /\ run started [ControlMessage [@DELIM; "sig"; "no json"; "{}"; "{}"; "{}"]]
     = Crashed (new_SyntaxError "Unexpected token in JSON") start.
Proof. repeat split; vm_compute; reflexivity. Qed.

(** A declaration inside a block is no top-level declaration, and it is
    rewritten. *)
Lemma nested_declaration_is_rewritten :
  rewrite (Script.Program
             [Script.BlockStatement
                [Script.VariableDeclaration "let" "y" (Script.Literal "2")]])
  = Script.Program
      [Script.BlockStatement
         [Script.VariableDeclaration "var" "y" (Script.Literal "2")]]
  /\ @rewriteCode node_js (VStr "{ let y = 2 }") = Normal "{ var y = 2 }"
  /\ @rewriteCode node_js (VStr "{ class B { } }") = Normal "{ class B { } }".
Proof. repeat split; vm_compute; reflexivity. Qed.

(** The same two declarations, handed to the engine as they are. *)
Example raw_let_twice :
  let run :=
    engine_runInContext value VUndefined Script.evaluate Script.execute
      Script.assign Script.run_script Script.read in
  let first := run "let x = 1" (ctx start) in
  result first = Normal VUndefined
  /\ result (run "let x = 2" (context_after first))
     = Throw (new_SyntaxError "Identifier 'x' has already been declared").
Proof. split; vm_compute; reflexivity. Qed.



(** A timer that user code left behind logs after the reply is sent. *)
Lemma late_console_call :
  exists k' : @kernel node_js,
    @execute_request node_js (execute_data "console.log(1)") start = (Normal tt, k')
    /\ console (ctx k') = ConsoleHooks (header (execute_data "console.log(1)"))
    /\ @handle node_js k' (ConsoleCallback (Call warn [VStr "late"]))
       = Running (@emitted node_js k' (@stream_of node_js (header (execute_data "console.log(1)"))
                                        (Call warn [VStr "late"])))
    /\ Forall (fun e => type_of_emission e = "stream"
                        /\ parent_of e = header (execute_data "console.log(1)"))
              (@stream_of node_js (header (execute_data "console.log(1)"))
                         (Call warn [VStr "late"]))
    /\ forall ev',
         (forall args, ev' = ShellMessage args -> ~ @is_execute_request node_js args) ->
         console (ctx (state_of (@handle node_js k' ev')))
         = ConsoleHooks (header (execute_data "console.log(1)")).
Proof.
  apply (@console_hooks_outlive_the_request node_js
           (execute_data "console.log(1)") (VStr "console.log(1)") start
           (Call warn [VStr "late"]));
    vm_compute; reflexivity.
Defined.

(** * Further properties of the handlers *)

Section HandlerEdges.

Context {P : Platform}.

Lemma header_of_typed (data : message) (t : string) :
  property (header data) "msg_type" = VStr t -> nullish (header data) = false.
Proof. destruct (header data); simpl; intros H; try discriminate H; reflexivity. Qed.

(** X1.  A [kernel_info_request] is answered by one message on the shell
    socket, addressed to the identities of the request, with the request's
    header as parent and the kernel's info as content; the counter and the
    execution context stay as they are and nothing is broadcast. *)
Theorem kernel_info_request_is_answered (args : list string) (data : message)
    (k : kernel) :
  parse args = Normal data ->
  property (header data) "msg_type" = VStr "kernel_info_request" ->
  handle k (ShellMessage args)
  = Running (emitted k [Replied (uuids data) "kernel_info_reply" kernel_info
                                (header data)]).
Proof.
  intros Hp Ht. pose proof (header_of_typed data _ Ht) as Hn.
  unfold handle, shell_on_message, bind, lift. rewrite Hp.
  rewrite (get_defined _ _ Hn), Ht.
  change (strict_equals_string (VStr "kernel_info_request") "kernel_info_request")
    with true.
  cbv iota. now rewrite send_emits.
Qed.

(** X2.  A message on the shell socket whose [msg_type] is neither
    [kernel_info_request] nor [execute_request] is ignored: the state is
    the same and nothing is sent.  This includes a header that is a
    number, a string or an array, whose [msg_type] is [undefined]. *)
Theorem other_shell_messages_are_ignored (args : list string) (data : message)
    (k : kernel) :
  parse args = Normal data ->
  nullish (header data) = false ->
  property (header data) "msg_type" <> VStr "kernel_info_request" ->
  property (header data) "msg_type" <> VStr "execute_request" ->
  handle k (ShellMessage args) = Running k.
Proof.
  intros Hp Hn H1 H2.
  unfold handle, shell_on_message, bind, lift. rewrite Hp, (get_defined _ _ Hn).
  destruct (property (header data) "msg_type") as [| |b|n|s|l|o]; try reflexivity.
  simpl. destruct (String.eqb s "kernel_info_request") eqn:E1.
  - apply String.eqb_eq in E1. subst. now destruct H1.
  - destruct (String.eqb s "execute_request") eqn:E2; [|reflexivity].
    apply String.eqb_eq in E2. subst. now destruct H2.
Qed.

(** X3.  On the control socket a [shutdown_request] ends the process with
    exit code 0 and sends no reply; every other message that decodes is
    ignored, an [execute_request] included. *)
Theorem control_messages (args : list string) (data : message) (k : kernel) :
  parse args = Normal data ->
  nullish (header data) = false ->
  handle k (ControlMessage args)
  = if strict_equals_string (property (header data) "msg_type") "shutdown_request"
    then Exited 0 k else Running k.
Proof.
  intros Hp Hn. unfold handle, control_on_message, bind, lift.
  rewrite Hp, (get_defined _ _ Hn).
  now destruct (strict_equals_string _ _).
Qed.

(** X4.  A message whose header is the JSON value [null] ends the process
    on either socket: reading [msg_type] throws a [TypeError] that nothing
    catches, before anything is sent or changed. *)
Theorem null_header_is_fatal (args : list string) (data : message) (k : kernel) :
  parse args = Normal data ->
  nullish (header data) = true ->
  exists message,
    handle k (ShellMessage args) = Crashed (new_TypeError message) k
    /\ handle k (ControlMessage args) = Crashed (new_TypeError message) k.
Proof.
  intros Hp Hn. destruct (get_nullish _ "msg_type" Hn) as [msg Hm].
  exists msg. unfold handle, shell_on_message, control_on_message, bind, lift.
  now rewrite Hp, Hm.
Qed.

Lemma no_stream_is_left (parent : value) (cs : list console_call) :
  filter (fun e => negb (is_stream e)) (flat_map (stream_of parent) cs) = [].
Proof.
  induction cs as [|c cs IH]; simpl; [reflexivity|].
  rewrite filter_app, IH, app_nil_r.
  unfold stream_of. destruct (method c); try reflexivity.
  destruct (falsy _); reflexivity.
Qed.

(** X5.  Whenever the shell handler returns from an execute request, so
    that the process keeps running, the request is bracketed.  Leaving
    aside the stream events, which the console calls of user code put in
    between, the handler has sent exactly: the busy status, the
    [execute_input] with the code and the new count, then an
    [execute_result] and a reply with status [ok] or an [error] event and a
    reply with status [error], and last the idle status; the counter is one
    higher. *)
Theorem served_request_is_bracketed (args : list string) (data : message)
    (k : kernel) :
  let n := executionCount k + 1 in
  parse args = Normal data ->
  property (header data) "msg_type" = VStr "execute_request" ->
  is_running (handle k (ShellMessage args)) = true ->
  exists (es outcome : list emission) (c : context bindings),
    handle k (ShellMessage args)
    = Running (emitted (Kernel n c (draws k) (sent k)) es)
    /\ filter (fun e => negb (is_stream e)) es
       = ([busy (header data); execute_input (code_of data) n (header data)]
          ++ outcome ++ [idle (header data)])%list
    /\ concludes data n outcome.
Proof.
  intros n Hp Ht Hr.
  destruct (shell_on_execute_request args data k Hp Ht) as [Hn Hx].
  unfold handle in *. rewrite Hx in *.
  destruct (get (content data) "code") as [source|e] eqn:Hs.
  - rewrite (execute_request_spec data source k Hn Hs) in *. fold n in Hr |- *.
    set (ev := evaluate_source source _) in *.
    destruct (execute_completion (result ev)) as [[]|e] eqn:Hc; [|discriminate Hr].
    unfold code_of. rewrite (get_property _ _ _ Hs).
    assert (Hf : filter (fun e => negb (is_stream e)) (execute_emissions data source n ev)
                 = ([busy (header data); execute_input source n (header data)]
                    ++ filter (fun e => negb (is_stream e))
                         (conclusion data n (result ev)))%list).
    { unfold execute_emissions.
      now rewrite (filter_app _ [_; _]), filter_app, no_stream_is_left. }
    destruct (result ev) as [v|e] eqn:Hres.
    + eexists _, [execute_result v n (header data); reply_ok (uuids data) n (header data)], _.
      split; [reflexivity|]. split; [exact Hf|].
      eexists _, _. split; [|left; repeat split]. reflexivity.
    + cbn [execute_completion] in Hc.
      destruct (nullish e) eqn:He.
      { destruct (get_nullish e "name" He) as [msg Hm]. rewrite Hm in Hc. discriminate Hc. }
      eexists _, [error_event e (header data); reply_error (uuids data) e n (header data)], _.
      split; [reflexivity|]. split; [rewrite Hf; cbn [conclusion]; now rewrite He|].
      eexists _, _. split; [|right; repeat split]. reflexivity.
  - exfalso. revert Hr. unfold execute_request.
    unfold bind at 1. rewrite iopub_emits by assumption.
    unfold bind at 1. unfold increment_executionCount at 1.
    unfold bind at 1. unfold lift at 1. rewrite Hs. discriminate.
Qed.

(** X6.  Code that [recast] does not parse is answered like any failure:
    the error it throws is broadcast and sent in the [error] reply, the
    idle status follows, and the process keeps running; the code is not
    run, so the bindings of the context are as before. *)
Theorem syntax_error_is_reported (args : list string) (data : message)
    (source e : value) (k : kernel) :
  let n := executionCount k + 1 in
  parse args = Normal data ->
  property (header data) "msg_type" = VStr "execute_request" ->
  get (content data) "code" = Normal source ->
  recast_parse source = Throw e ->
  nullish e = false ->
  handle k (ShellMessage args)
  = Running
      (emitted (Kernel n (Context (ConsoleHooks (header data)) (user (ctx k)))
                       (draws k) (sent k))
         [busy (header data); execute_input source n (header data);
          error_event e (header data);
          reply_error (uuids data) e n (header data);
          idle (header data)]).
Proof.
  intros n Hp Ht Hs He Hn'.
  destruct (shell_on_execute_request args data k Hp Ht) as [Hn Hx].
  unfold handle. rewrite Hx, (execute_request_spec data source k Hn Hs).
  unfold evaluate_source, rewriteCode. rewrite He.
  cbn [result calls context_after execute_completion].
  rewrite (get_defined e _ Hn'). cbn [settle].
  unfold execute_emissions, conclusion. cbn [result calls flat_map app].
  now rewrite Hn'.
Qed.

(** X7.  An execute request whose content is [null] ends the process
    right after the busy status: the counter is incremented, then reading
    [data.content.code] throws outside the [try] block, so there is no
    [execute_input], no reply and no idle status, and the console hooks
    are not yet replaced. *)
Theorem null_content_is_fatal (args : list string) (data : message) (k : kernel) :
  parse args = Normal data ->
  property (header data) "msg_type" = VStr "execute_request" ->
  nullish (content data) = true ->
  exists message,
    handle k (ShellMessage args)
    = Crashed (new_TypeError message)
        (emitted (Kernel (executionCount k + 1) (ctx k) (draws k) (sent k))
                 [busy (header data)]).
Proof.
  intros Hp Ht Hc.
  destruct (shell_on_execute_request args data k Hp Ht) as [Hn Hx].
  destruct (get_nullish _ "code" Hc) as [msg Hm]. exists msg.
  unfold handle. rewrite Hx. unfold execute_request.
  unfold bind at 1. rewrite iopub_emits by assumption.
  unfold bind at 1. unfold increment_executionCount at 1.
  unfold bind at 1. unfold lift at 1. rewrite Hm. reflexivity.
Qed.

End HandlerEdges.

(** * Invariants of the process *)

Section ProcessInvariants.

Context {P : Platform}.

Lemma send_keeps_count (s : socket) (ids : list string) (type : string)
    (content parent metadata : value) (k : kernel) :
  executionCount (snd (send s ids type content parent metadata k)) = executionCount k.
Proof.
  unfold send, bind, uuid, lift, socket_send.
  destruct (get parent "username"); [|reflexivity].
  destruct (get parent "session"); reflexivity.
Qed.

Lemma iopub_keeps_count (type : string) (content parent : value) (k : kernel) :
  executionCount (snd (iopub type content parent k)) = executionCount k.
Proof. unfold iopub, bind, uuid. now rewrite send_keeps_count. Qed.

Lemma hooks_keep_count (parent : value) (c : console_call) (k : kernel) :
  executionCount (snd (hooks parent c k)) = executionCount k.
Proof.
  unfold hooks, hook_log, hook_error.
  destruct (method c); try apply iopub_keeps_count.
  destruct (falsy _); [apply iopub_keeps_count|reflexivity].
Qed.

Lemma count_after_busy (data : message) (k : kernel) :
  nullish (header data) = false ->
  executionCount (snd (execute_request data k)) = executionCount k + 1.
Proof.
  intros Hn. destruct (get (content data) "code") as [source|e] eqn:Hs.
  - now rewrite (execute_request_spec data source k Hn Hs).
  - unfold execute_request.
    unfold bind at 1. rewrite iopub_emits by assumption.
    unfold bind at 1. unfold increment_executionCount at 1.
    unfold bind at 1. unfold lift at 1. rewrite Hs. reflexivity.
Qed.

(** X8.  The counter moves on execute requests only.  Every execute
    request adds one to it, also a request that ends the process; no other
    message on the shell socket, no control message, no heartbeat and no
    console call changes it. *)
Theorem counter_counts_execute_requests (k : kernel) (ev : event) :
  (forall args, ev = ShellMessage args -> is_execute_request args ->
     executionCount (state_of (handle k ev)) = executionCount k + 1)
  /\ ((forall args, ev = ShellMessage args -> ~ is_execute_request args) ->
      executionCount (state_of (handle k ev)) = executionCount k).
Proof.
  split.
  - intros args -> (data & Hp & Ht).
    destruct (shell_on_execute_request args data k Hp Ht) as [Hn Hx].
    unfold handle. rewrite state_of_settle, Hx. now apply count_after_busy.
  - intros Hev. destruct ev as [args|args|data more|c]; unfold handle.
    + rewrite state_of_settle. unfold shell_on_message, bind, lift.
      destruct (parse args) as [data|e] eqn:Hp; [|reflexivity].
      destruct (get (header data) "msg_type") as [t|e] eqn:Ht; [|reflexivity].
      destruct (strict_equals_string t "kernel_info_request");
        [apply send_keeps_count|].
      destruct (strict_equals_string t "execute_request") eqn:Hx; [|reflexivity].
      exfalso. apply (Hev args eq_refl). exists data. split; [assumption|].
      rewrite (get_property _ _ _ Ht).
      destruct t; try discriminate Hx. simpl in Hx.
      apply String.eqb_eq in Hx. now subst.
    + unfold control_on_message, bind, lift.
      destruct (parse args) as [data|e]; [|reflexivity].
      destruct (get (header data) "msg_type") as [t|e]; [|reflexivity].
      destruct (strict_equals_string t "shutdown_request"); reflexivity.
    + reflexivity.
    + rewrite state_of_settle. unfold console_call_in_context.
      destruct (console (ctx k)); try reflexivity. apply hooks_keep_count.
Qed.

Lemma encoded_is_signed (replyId : string) (ids : list string) (type : string)
    (content parent : value) :
  well_signed (encoded replyId ids type content parent).
Proof.
  unfold encoded, frames.
  exists ids, (toHash replyId (property parent "username") type
                      (property parent "session") content parent VUndefined).
  split; reflexivity.
Qed.

Lemma rendered_are_signed (es : list emission) (d : nat) :
  Forall echo_or_signed (render_all d es).
Proof.
  revert d. induction es as [|e es IH]; intros d; simpl; constructor; [|apply IH].
  right. destruct e; apply encoded_is_signed.
Qed.

(** Whatever [send] is given, it sends one signed message or none. *)
Lemma send_appends (s : socket) (ids : list string) (type : string)
    (content parent : value) (k : kernel) :
  exists more,
    sent (snd (send s ids type content parent VUndefined k)) = (sent k ++ more)%list
    /\ Forall echo_or_signed more.
Proof.
  destruct (nullish parent) eqn:Hn.
  - exists []. split; [|constructor].
    unfold send, bind, uuid, lift.
    destruct (get_nullish parent "username" Hn) as [msg ->]. simpl.
    now rewrite app_nil_r.
  - exists [(s, encoded (token (draws k)) ids type content parent)].
    split; [|constructor; [right; apply encoded_is_signed|constructor]].
    unfold send, bind, uuid, lift, socket_send.
    rewrite !(get_defined _ _ Hn). reflexivity.
Qed.

Lemma hooks_append (parent : value) (c : console_call) (k : kernel) :
  exists more,
    sent (snd (hooks parent c k)) = (sent k ++ more)%list
    /\ Forall echo_or_signed more.
Proof.
  assert (H : forall type content,
             exists more,
               sent (snd (iopub type content parent k)) = (sent k ++ more)%list
               /\ Forall echo_or_signed more).
  { intros type content. unfold iopub, bind, uuid.
    apply (send_appends iopub_socket _ type content parent
             (Kernel (executionCount k) (ctx k) (S (draws k)) (sent k))). }
  unfold hooks, hook_log, hook_error. destruct (method c); try apply H.
  destruct (falsy _); [apply H|].
  exists []. split; [simpl; now rewrite app_nil_r|constructor].
Qed.

(** Handling one event adds messages to the log, each an echo on the
    heartbeat socket or a signed message. *)
Lemma handle_appends (k : kernel) (ev : event) :
  exists more,
    sent (state_of (handle k ev)) = (sent k ++ more)%list
    /\ Forall echo_or_signed more.
Proof.
  assert (Hnil : exists more, sent k = (sent k ++ more)%list
                              /\ Forall echo_or_signed more).
  { exists []. split; [now rewrite app_nil_r|constructor]. }
  destruct ev as [args|args|data more|c]; unfold handle.
  - rewrite state_of_settle. unfold shell_on_message, bind, lift.
    destruct (parse args) as [data|e] eqn:Hp; [|exact Hnil].
    destruct (get (header data) "msg_type") as [t|e] eqn:Ht; [|exact Hnil].
    destruct (strict_equals_string t "kernel_info_request"); [apply send_appends|].
    destruct (strict_equals_string t "execute_request"); [|exact Hnil].
    assert (Hn : nullish (header data) = false).
    { destruct (header data); simpl in *; try discriminate Ht; reflexivity. }
    destruct (get (content data) "code") as [source|e] eqn:Hs.
    + rewrite (execute_request_spec data source k Hn Hs).
      eexists. split; [reflexivity|]. apply rendered_are_signed.
    + exists (render_all (draws k) [busy (header data)]).
      split; [|apply rendered_are_signed].
      unfold execute_request.
      unfold bind at 1. rewrite iopub_emits by assumption.
      unfold bind at 1. unfold increment_executionCount at 1.
      unfold bind at 1. unfold lift at 1. rewrite Hs. reflexivity.
  - unfold control_on_message, bind, lift.
    destruct (parse args) as [data|e]; [|exact Hnil].
    destruct (get (header data) "msg_type") as [t|e]; [|exact Hnil].
    destruct (strict_equals_string t "shutdown_request"); exact Hnil.
  - exists [(hb, [data])]. split; [reflexivity|].
    constructor; [now left|constructor].
  - rewrite state_of_settle. unfold console_call_in_context.
    destruct (console (ctx k)); try exact Hnil. apply hooks_append.
Qed.

(** X9.  Over any sequence of events the log of sent messages only grows:
    what was sent stays, and every message added is an echo on the
    heartbeat socket or carries, after the delimiter, the HMAC of its four
    payload frames computed with the key. *)
Theorem log_grows_by_signed_messages (k : kernel) (evs : list event) :
  exists more,
    sent (state_of (run (Running k) evs)) = (sent k ++ more)%list
    /\ Forall echo_or_signed more.
Proof.
  revert k. induction evs as [|ev evs IH]; intros k.
  - exists []. split; [simpl; now rewrite app_nil_r|constructor].
  - cbn [run]. destruct (handle_appends k ev) as (m1 & H1 & F1).
    destruct (handle k ev) as [k'|e k'|code k'] eqn:Hh; cbn [state_of] in H1.
    + destruct (IH k') as (m2 & H2 & F2).
      exists (m1 ++ m2)%list. split.
      * now rewrite H2, H1, app_assoc.
      * apply Forall_app. now split.
    + exists m1. rewrite run_stopped by reflexivity. now split.
    + exists m1. rewrite run_stopped by reflexivity. now split.
Qed.

Lemma emissions_answer (data : message) (source : value) (n : Z)
    (ev : evaluation bindings value) :
  Forall (answers data) (execute_emissions data source n ev).
Proof.
  assert (Hb : forall t c, answers data (Published t c (header data)))
    by (intros; split; [reflexivity|exact I]).
  assert (Hr : forall t c, answers data (Replied (uuids data) t c (header data)))
    by (intros; split; reflexivity).
  unfold execute_emissions.
  apply Forall_app; split; [|apply Forall_app; split].
  - constructor; [apply Hb|constructor; [apply Hb|constructor]].
  - induction (calls ev) as [|c cs IH]; simpl; [constructor|].
    apply Forall_app; split; [|exact IH].
    unfold stream_of, stream. destruct (method c);
      try (constructor; [apply Hb|constructor]).
    destruct (falsy _); [constructor; [apply Hb|constructor]|constructor].
  - unfold conclusion. destruct (result ev) as [v|e].
    + constructor; [apply Hb|constructor; [apply Hr|constructor; [apply Hb|constructor]]].
    + destruct (nullish e); [constructor|].
      constructor; [apply Hb|constructor; [apply Hr|constructor; [apply Hb|constructor]]].
Qed.

(** X10.  The messages the shell handler sends for a request are tied to
    that request.  Apart from the stream events of console hooks, every
    message it sends while it handles a message has the header of that
    message as parent, and every message on the shell socket is addressed
    to the identities of that message.  This holds however the handling
    ends. *)
Theorem messages_answer_their_request (args : list string) (data : message)
    (k : kernel) :
  parse args = Normal data ->
  exists es,
    sent (state_of (handle k (ShellMessage args)))
    = (sent k ++ render_all (draws k) es)%list
    /\ Forall (fun e => is_stream e = false -> answers data e) es.
Proof.
  intros Hp.
  assert (Hnil : exists es, sent k = (sent k ++ render_all (draws k) es)%list
                            /\ Forall (fun e => is_stream e = false -> answers data e) es).
  { exists []. split; [simpl; now rewrite app_nil_r|constructor]. }
  unfold handle. rewrite state_of_settle. unfold shell_on_message, bind, lift.
  rewrite Hp.
  destruct (get (header data) "msg_type") as [t|e] eqn:Ht; [|exact Hnil].
  assert (Hn : nullish (header data) = false).
  { destruct (header data); simpl in *; try discriminate Ht; reflexivity. }
  destruct (strict_equals_string t "kernel_info_request").
  - rewrite send_emits by assumption.
    eexists. split; [reflexivity|].
    constructor; [split; reflexivity|constructor].
  - destruct (strict_equals_string t "execute_request"); [|exact Hnil].
    destruct (get (content data) "code") as [source|e] eqn:Hs.
    + rewrite (execute_request_spec data source k Hn Hs).
      eexists. split; [reflexivity|].
      eapply Forall_impl; [|apply emissions_answer]. auto.
    + exists [busy (header data)].
      split; [|constructor; [split; [reflexivity|exact I]|constructor]].
      unfold execute_request.
      unfold bind at 1. rewrite iopub_emits by assumption.
      unfold bind at 1. unfold increment_executionCount at 1.
      unfold bind at 1. unfold lift at 1. rewrite Hs. reflexivity.
Qed.

End ProcessInvariants.

(** * Further properties of the rewriter, the codec and the startup *)

Section RewriterComposition.

Lemma walk_statement_is_no_class (s : node) :
  is_type "ClassDeclaration" (walk_statement s) = false.
Proof.
  unfold walk_statement.
  destruct (is_type "ClassDeclaration" (walk s)) eqn:E; [reflexivity|exact E].
Qed.

Lemma walk_statement_twice (s : node) :
  walk_statement (walk_statement s) = walk_statement s.
Proof.
  unfold walk_statement at 1.
  rewrite (walk_all_var _ (all_var_walk_statement s)).
  now rewrite walk_statement_is_no_class.
Qed.

(** X11.  Rewriting code that is rewritten already changes nothing, and
    no statement of a rewritten program is a class declaration. *)
Theorem rewrite_is_idempotent (program : node) :
  rewrite (rewrite program) = rewrite program
  /\ forallb (fun s => negb (is_type "ClassDeclaration" s))
             (children_of (rewrite program)) = true.
Proof.
  destruct program as [t a body]. simpl. split.
  - f_equal. rewrite map_map. apply map_ext. intros s. apply walk_statement_twice.
  - induction body as [|s body IH]; simpl; [reflexivity|].
    now rewrite walk_statement_is_no_class, IH.
Qed.







End RewriterComposition.

Section CodecEdges.

Context {P : Platform}.

(** X13.  A console call sends one stream message on the iopub socket,
    to [stderr] for [warn], [error] and [assert] and to [stdout] for the
    other methods, with a text that ends in a newline; [assert] sends
    nothing when its condition is truthy, and it reports a failure when it
    is called without condition. *)
Theorem console_call_writes_one_stream (parent : value) (c : console_call)
    (k : kernel) :
  nullish parent = false ->
  let silent :=
    match method c with
    | assert => negb (falsy (hd VUndefined (args c)))
    | _ => false
    end in
  exists a,
    hooks parent c k
    = (Normal tt,
       emitted k
         (if silent then []
          else [Published "stream"
                  (VObj [("name", VStr (stream_name (method c)));
                         ("text", VStr (util_format a ++ String "010" ""))])
                  parent])).
Proof.
  intros Hn silent. subst silent. rewrite (hooks_emits _ _ _ Hn).
  unfold stream_of, stream, fmt.
  destruct (method c); try (eexists; reflexivity).
  destruct (falsy _); [eexists; reflexivity|exists []; reflexivity].
Qed.

Lemma length_substring (s : string) (n m : nat) :
  String.length (substring n m s) = Nat.min m (String.length s - n).
Proof.
  revert n m. induction s as [|c s IH]; intros [|n] [|m]; simpl;
    rewrite ?IH; try reflexivity; try lia.
Qed.

(** X14.  A message id is the 15-ary text of the random number without
    its first ten characters, cut to ninety: its length is
    [min 90 (length - 10)], and it is empty when the text has no more
    than ten characters. *)
Theorem uuid_is_the_tail_of_the_random_text (k : kernel) :
  exists id,
    uuid k = (Normal id, Kernel (executionCount k) (ctx k) (S (draws k)) (sent k))
    /\ String.length id
       = Nat.min 90 (String.length (random_base15 (draws k)) - 10)
    /\ ((String.length (random_base15 (draws k)) <= 10)%nat -> id = "").
Proof.
  eexists. split; [reflexivity|].
  pose proof (length_substring (random_base15 (draws k)) 10 90) as Hl.
  split; [exact Hl|]. intros Hs.
  destruct (substring 10 90 (random_base15 (draws k))) eqn:E; [reflexivity|].
  cbn [String.length] in Hl. lia.
Qed.

Lemma slice_all_but_last {A} (l : list A) : slice l 0 (-1) = removelast l.
Proof.
  unfold slice, relative_index. simpl.
  rewrite Z.min_l by lia. simpl. rewrite Nat.sub_0_r.
  rewrite removelast_firstn_len. f_equal. lia.
Qed.

Lemma slice_from_one {A} (l : list A) : slice_from l 1 = tl l.
Proof.
  unfold slice_from, relative_index. simpl.
  destruct l as [|x l]; simpl; [reflexivity|].
  rewrite Z.min_l by lia. reflexivity.
Qed.

(** X15.  Frames without the delimiter are not refused.  [indexOf] gives
    [-1], so the second frame is parsed as the header and the fifth as the
    content, and all frames but the last become the identities; with
    fewer than five frames the content is missing and is parsed as the
    text [undefined]. *)
Theorem parse_without_delimiter (args : list string) :
  indexOf args DELIM = -1 ->
  parse args
  = match JSON_parse_element (nth_error args 1) with
    | Throw e => Throw e
    | Normal header =>
        match JSON_parse_element (nth_error args 4) with
        | Throw e => Throw e
        | Normal content => Normal (Message header content (removelast args))
        end
    end.
Proof.
  intros H. unfold parse. rewrite H.
  change (-1 + 2) with 1. rewrite slice_all_but_last, slice_from_one.
  destruct args as [|x args]; reflexivity.
Qed.

End CodecEdges.

Section StartupFacts.

Variable to_string : value -> string.
Variable zmq_bind : list (string * string) -> string -> string -> option value.
Variable config : value.

(** X16.  The five sockets are bound in the order heartbeat, iopub,
    control, stdin, shell, each at [transport://ip:port] with its own port.
    When every bind succeeds, the handlers are registered with exactly
    these five sockets bound; when one fails, the startup is rejected with
    that error, the sockets before it stay bound, no later socket is bound
    and no handler is registered. *)
Theorem startup_binds_in_order :
  nullish config = false ->
  match fst (startup to_string zmq_bind config []) with
  | Normal _ =>
      snd (startup to_string zmq_bind config []) = plan to_string config
  | Throw e =>
      exists (n : nat) (type endpoint : string),
        snd (startup to_string zmq_bind config [])
        = firstn n (plan to_string config)
        /\ nth_error (plan to_string config) n = Some (type, endpoint)
        /\ zmq_bind (firstn n (plan to_string config)) type endpoint = Some e
  end.
Proof.
  intros Hn. unfold startup, and_next, config_field, createSocket, plan.
  rewrite !(get_defined config _ Hn). cbn [map fst snd app].
  set (address := to_string (property config "transport") ++ "://"
                  ++ to_string (property config "ip")).
  destruct (zmq_bind [] "rep" _) as [e|] eqn:E1.
  { exists 0%nat. eexists _, _. repeat split. exact E1. }
  destruct (zmq_bind _ "pub" _) as [e|] eqn:E2.
  { exists 1%nat. eexists _, _. repeat split. exact E2. }
  destruct (zmq_bind _ "router" _) as [e|] eqn:E3.
  { exists 2%nat. eexists _, _. repeat split. exact E3. }
  cbn [app] in *.
  destruct (zmq_bind [_; _; _] "router" _) as [e|] eqn:E4.
  { exists 3%nat. eexists _, _. repeat split. exact E4. }
  cbn [app] in *.
  destruct (zmq_bind [_; _; _; _] "router" _) as [e|] eqn:E5.
  { exists 4%nat. eexists _, _. repeat split. exact E5. }
  reflexivity.
Qed.

End StartupFacts.

Section CodecSplit.

Context {P : Platform}.

Lemma indexOf_split (l : list string) (x : string) :
  0 <= indexOf l x ->
  exists ids rest, l = (ids ++ x :: rest)%list /\ indexOf ids x = -1.
Proof.
  induction l as [|y l IH]; simpl; [lia|].
  destruct (String.eqb y x) eqn:E.
  - intros _. apply String.eqb_eq in E. subst y. exists [], l. now split.
  - destruct (indexOf l x <? 0) eqn:El; [lia|]. intros _.
    apply Z.ltb_ge in El. destruct (IH El) as (ids & rest & -> & Hi).
    exists (y :: ids), rest. split; [reflexivity|].
    simpl. now rewrite E, Hi.
Qed.

(** X17.  Frames that hold the delimiter are split at its first
    occurrence: the frames before it, which do not hold the delimiter, are
    the identities of every message decoded from them, whatever follows,
    later delimiters included. *)
Theorem parse_splits_at_first_delimiter (args : list string) :
  0 <= indexOf args DELIM ->
  exists ids rest,
    args = (ids ++ DELIM :: rest)%list
    /\ indexOf ids DELIM = -1
    /\ forall data, parse args = Normal data -> uuids data = ids.
Proof.
  intros H. destruct (indexOf_split args DELIM H) as (ids & rest & -> & Hi).
  exists ids, rest. repeat split; [assumption|].
  intros data. unfold parse. rewrite (indexOf_after ids rest DELIM Hi).
  replace (ids ++ DELIM :: rest)%list with (ids ++ (DELIM :: rest))%list by reflexivity.
  rewrite slice_identities.
  destruct (JSON_parse_element _); [|discriminate].
  destruct (JSON_parse_element _); [|discriminate].
  now intros [= <-].
Qed.

End CodecSplit.

(** * The further properties on concrete messages *)

(** A [kernel_info_request]. *)
Lemma kernel_info_example :
  @handle node_js start (ShellMessage (request "kernel_info_request" (VObj [])))
  = Running (@emitted node_js start
               [Replied (uuids info_data) "kernel_info_reply" kernel_info
                        (header info_data)]).
Proof.
  apply (@kernel_info_request_is_answered node_js
           (request "kernel_info_request" (VObj [])) info_data start);
    vm_compute; reflexivity.
Defined.

(** A message whose header is the number 5. *)
Lemma number_header_is_ignored :
  @handle node_js start (ShellMessage (raw_request "5" "{}")) = Running start.
Proof.
  apply (@other_shell_messages_are_ignored node_js (raw_request "5" "{}")
           (Message (VNum 5) (VObj []) []) start).
  - vm_compute. reflexivity.
  - reflexivity.
  - discriminate.
  - discriminate.
Defined.

(** A [shutdown_request] on the control socket. *)
Lemma shutdown_example :
  @handle node_js start (ControlMessage (request "shutdown_request" (VObj [])))
  = if strict_equals_string (property (header shutdown_data) "msg_type")
                            "shutdown_request"
    then Exited 0 start else Running start.
Proof.
  apply (@control_messages node_js (request "shutdown_request" (VObj []))
           shutdown_data start);
    vm_compute; reflexivity.
Defined.

(** A message whose header frame is [null]. *)
Lemma null_header_example :
  exists message,
    @handle node_js start (ShellMessage (raw_request "null" "{}"))
    = Crashed (new_TypeError message) start
    /\ @handle node_js start (ControlMessage (raw_request "null" "{}"))
       = Crashed (new_TypeError message) start.
Proof.
  apply (@null_header_is_fatal node_js (raw_request "null" "{}")
           (Message VNull (VObj []) []) start);
    vm_compute; reflexivity.
Defined.

(** A request that logs and then fails with a reported error. *)
Lemma bracketed_example :
  exists (es outcome : list emission) (c : context (@bindings node_js)),
    @handle node_js start
      (ShellMessage (execute_request_for "console.log(1); throw 2"))
    = Running (@emitted node_js
                 (@Kernel node_js (executionCount start + 1) c (draws start)
                          (sent start)) es)
    /\ filter (fun e => negb (is_stream e)) es
       = ([busy (header (execute_data "console.log(1); throw 2"));
           execute_input (code_of (execute_data "console.log(1); throw 2"))
                         (executionCount start + 1)
                         (header (execute_data "console.log(1); throw 2"))]
          ++ outcome ++ [idle (header (execute_data "console.log(1); throw 2"))])%list
    /\ concludes (execute_data "console.log(1); throw 2")
                 (executionCount start + 1) outcome.
Proof.
  apply (@served_request_is_bracketed node_js
           (execute_request_for "console.log(1); throw 2")
           (execute_data "console.log(1); throw 2") start);
    vm_compute; reflexivity.
Defined.

(** Code that does not parse. *)
Lemma syntax_error_example :
  @handle node_js start (ShellMessage (execute_request_for "let 1"))
  = Running
      (@emitted node_js
         (@Kernel node_js (executionCount start + 1)
            (Context (ConsoleHooks (header (execute_data "let 1")))
                     (user (ctx start)))
            (draws start) (sent start))
         [busy (header (execute_data "let 1"));
          execute_input (VStr "let 1") (executionCount start + 1)
                        (header (execute_data "let 1"));
          error_event (new_SyntaxError "Unexpected token")
                      (header (execute_data "let 1"));
          reply_error (uuids (execute_data "let 1"))
                      (new_SyntaxError "Unexpected token")
                      (executionCount start + 1) (header (execute_data "let 1"));
          idle (header (execute_data "let 1"))]).
Proof.
  apply (@syntax_error_is_reported node_js (execute_request_for "let 1")
           (execute_data "let 1") (VStr "let 1")
           (new_SyntaxError "Unexpected token") start);
    vm_compute; reflexivity.
Defined.

(** An execute request whose content frame is [null]. *)
Lemma null_content_example :
  exists message,
    @handle node_js start (ShellMessage (request "execute_request" VNull))
    = Crashed (new_TypeError message)
        (@emitted node_js
           (@Kernel node_js (executionCount start + 1) (ctx start) (draws start)
                    (sent start))
           [busy (header (Message (request_header "execute_request") VNull []))]).
Proof.
  apply (@null_content_is_fatal node_js (request "execute_request" VNull)
           (Message (request_header "execute_request") VNull []) start);
    vm_compute; reflexivity.
Defined.

(** The messages of a request that ends the process. *)
Lemma answers_example :
  exists es,
    sent (state_of (@handle node_js start
                      (ShellMessage (execute_request_for "throw null"))))
    = (sent start ++ @render_all node_js (draws start) es)%list
    /\ Forall (fun e => is_stream e = false -> answers (execute_data "throw null") e) es.
Proof.
  apply (@messages_answer_their_request node_js
           (execute_request_for "throw null") (execute_data "throw null") start).
  vm_compute. reflexivity.
Defined.


(** [console.assert(false, 'x')] *)
Lemma failed_assertion_example :
  exists a,
    @hooks node_js (request_header "execute_request")
      (Call assert [VBool false; VStr "x"]) start
    = (Normal tt,
       @emitted node_js start
         (if match method (Call assert [VBool false; VStr "x"]) with
             | assert =>
                 negb (falsy (hd VUndefined
                                 (args (Call assert [VBool false; VStr "x"]))))
             | _ => false
             end
          then []
          else [Published "stream"
                  (VObj [("name",
                          VStr (stream_name
                                  (method (Call assert [VBool false; VStr "x"]))));
                         ("text", VStr (@util_format node_js a ++ String "010" ""))])
                  (request_header "execute_request")])).
Proof.
  apply (@console_call_writes_one_stream node_js (request_header "execute_request")
           (Call assert [VBool false; VStr "x"]) start).
  reflexivity.
Defined.

(** Five frames, none the delimiter. *)
Lemma parse_without_delimiter_example :
  @parse node_js ["a"; "{}"; "b"; "c"; "[]"]
  = match @JSON_parse_element node_js (nth_error ["a"; "{}"; "b"; "c"; "[]"] 1) with
    | Throw e => Throw e
    | Normal header =>
        match @JSON_parse_element node_js
                (nth_error ["a"; "{}"; "b"; "c"; "[]"] 4) with
        | Throw e => Throw e
        | Normal content =>
            Normal (Message header content
                            (removelast ["a"; "{}"; "b"; "c"; "[]"]))
        end
    end.
Proof.
  apply (@parse_without_delimiter node_js ["a"; "{}"; "b"; "c"; "[]"]).
  reflexivity.
Defined.

(** The control socket cannot be bound. *)
Lemma failed_bind_example :
  match fst (startup example_to_string third_bind_fails example_config []) with
  | Normal _ =>
      snd (startup example_to_string third_bind_fails example_config [])
      = plan example_to_string example_config
  | Throw e =>
      exists (n : nat) (type endpoint : string),
        snd (startup example_to_string third_bind_fails example_config [])
        = firstn n (plan example_to_string example_config)
        /\ nth_error (plan example_to_string example_config) n
           = Some (type, endpoint)
        /\ third_bind_fails (firstn n (plan example_to_string example_config))
             type endpoint = Some e
  end.
Proof.
  apply (startup_binds_in_order example_to_string third_bind_fails example_config).
  reflexivity.
Defined.

(** What the failed startup leaves bound. *)
Example failed_bind_leaves_two_sockets :
  startup example_to_string third_bind_fails example_config []
  = (Throw (Script.new_Error "EADDRINUSE"),
     [("rep", "tcp://127.0.0.1:5001"); ("pub", "tcp://127.0.0.1:5002")]).
Proof. vm_compute. reflexivity. Qed.

(** Two identities, and a second delimiter among the payload frames. *)
Lemma first_delimiter_example :
  exists ids rest,
    ["a"; "b"; @DELIM; "sig"; "{}"; @DELIM; "{}"; "[]"]
    = (ids ++ @DELIM :: rest)%list
    /\ indexOf ids DELIM = -1
    /\ forall data,
         @parse node_js ["a"; "b"; @DELIM; "sig"; "{}"; @DELIM; "{}"; "[]"]
         = Normal data ->
         uuids data = ids.
Proof.
  apply (@parse_splits_at_first_delimiter node_js
           ["a"; "b"; @DELIM; "sig"; "{}"; @DELIM; "{}"; "[]"]).
  vm_compute. discriminate.
Defined.
